(** * HeroForge AI: the upload / generate workflow and the Gemini client

    A shallow embedding of [services/geminiService.ts], [types.ts] and the
    state handlers of [App.tsx], followed by the properties of the
    specification that concern them.

    JavaScript strings are sequences of UTF-16 code units; they are modelled
    as lists of [N].  [null] and [undefined] are modelled by [None].  A thrown
    [Error] is modelled by its [message] property, the only part of it the
    program ever reads. *)

From Stdlib Require Import List NArith Ascii String Strings.Byte DecimalString Bool Lia.
From Stdlib Require DecimalPos DecimalN.
Import ListNotations.

(** ** The fragment of JavaScript the program uses *)

Module JS.

Definition code_unit := N.
Definition jsstring := list code_unit.

(** An ASCII literal of the source, as a JavaScript string. *)
Definition js (s : string) : jsstring :=
  map N_of_ascii (list_ascii_of_string s).
Arguments js s%_string.

Definition comma : code_unit := 44%N.

Fixpoint eqb (s t : jsstring) : bool :=
  match s, t with
  | [], [] => true
  | c :: s', d :: t' => N.eqb c d && eqb s' t'
  | _, _ => false
  end.

(** [a.includes(x)] on an array of strings. *)
Definition includes (a : list jsstring) (x : jsstring) : bool :=
  existsb (eqb x) a.

(** [ToBoolean] on a string: the empty string is the only falsy one. *)
Definition truthy (s : jsstring) : bool :=
  match s with [] => false | _ :: _ => true end.

(** [v || d] where [v] is a string, [null] or [undefined]. *)
Definition or_default (v : option jsstring) (d : jsstring) : jsstring :=
  match v with
  | Some (c :: s) => c :: s
  | Some [] | None => d
  end.

(** A value of type [string | undefined] inside a template literal. *)
Definition template (v : option jsstring) : jsstring :=
  match v with
  | Some s => s
  | None => js "undefined"
  end.

(** A non-negative integer inside a template literal. *)
Definition template_number (n : N) : jsstring :=
  js (NilZero.string_of_uint (N.to_uint n)).

(** [s.split(sep)] for a one-character separator: never the empty array. *)
Fixpoint split (sep : code_unit) (s : jsstring) : list jsstring :=
  match s with
  | [] => [[]]
  | c :: s' =>
      if N.eqb c sep then [] :: split sep s'
      else match split sep s' with
           | seg :: segs => (c :: seg) :: segs
           | [] => [[c]]
           end
  end.

(** [a[i]]: [undefined] out of range. *)
Definition index {A : Type} (a : list A) (i : nat) : option A := nth_error a i.

(** WhiteSpace and LineTerminator of ECMAScript, the characters that
    [String.prototype.trim] removes. *)
Definition is_white_space (c : code_unit) : bool :=
  (N.leb 9 c && N.leb c 13)            (* TAB LF VT FF CR *)
  || N.eqb c 32                        (* SP *)
  || N.eqb c 160                       (* NBSP *)
  || N.eqb c 5760                      (* U+1680 *)
  || (N.leb 8192 c && N.leb c 8202)    (* U+2000 .. U+200A *)
  || N.eqb c 8232 || N.eqb c 8233      (* LS PS *)
  || N.eqb c 8239                      (* U+202F *)
  || N.eqb c 8287                      (* U+205F *)
  || N.eqb c 12288                     (* U+3000 *)
  || N.eqb c 65279.                    (* U+FEFF *)

Fixpoint trimStart (s : jsstring) : jsstring :=
  match s with
  | [] => []
  | c :: s' => if is_white_space c then trimStart s' else s
  end.

Definition trimEnd (s : jsstring) : jsstring := rev (trimStart (rev s)).

Definition trim (s : jsstring) : jsstring := trimEnd (trimStart s).

(** A settled promise (or the outcome of a [try] block): either a value, or
    a thrown object of which only [message] is observed. *)
Inductive settled (A : Type) : Type :=
| Fulfilled (value : A)
| Rejected (message : option jsstring).
Arguments Fulfilled {A} value.
Arguments Rejected {A} message.

(** [throw new Error(msg)]. *)
Definition throw {A : Type} (msg : jsstring) : settled A := Rejected (Some msg).

End JS.

Import JS.

(** ** [types.ts] *)

Module types.

Record GeneratedImage : Type := {
  imageUrl : jsstring;
  prompt : jsstring;
  timestamp : N
}.

Record AppState : Type := {
  originalImage : option jsstring;
  originalMimeType : jsstring;
  isGenerating : bool;
  generatedImage : option GeneratedImage;
  error : option jsstring
}.

End types.

(** ** [services/geminiService.ts] *)

Module geminiService.

(** The shapes of the SDK that the client reads or writes; every property
    the client tests for presence is optional. *)
Record Blob : Type := {
  data : option jsstring;
  mimeType : option jsstring
}.

Record Part : Type := {
  inlineData : option Blob;
  text : option jsstring
}.

Record Content : Type := { parts : option (list Part) }.

Record Candidate : Type := { content : option Content }.

Record GenerateContentResponse : Type := {
  candidates : option (list Candidate)
}.

Record GenerateContentParameters : Type := {
  model : jsstring;
  contents : Content
}.

(** The request [editImageWithGemini] builds. *)
Definition editRequest (base64Image : option jsstring)
    (mimeType prompt : jsstring) : GenerateContentParameters :=
  {| model := js "gemini-2.5-flash-image";
     contents :=
       {| parts := Some
            [ {| inlineData := Some {| data := base64Image;
                                       mimeType := Some mimeType |};
                 text := None |};
              {| inlineData := None; text := Some prompt |} ] |} |}.

(** The [for] loop over [content.parts]: the first part with [inlineData]
    sets the URL and breaks. *)
Fixpoint scanParts (ps : list Part) (generatedImageUrl : jsstring) : jsstring :=
  match ps with
  | [] => generatedImageUrl
  | part :: rest =>
      match inlineData part with
      | Some blob =>
          let base64EncodeString := data blob in
          let responseMime := or_default (mimeType blob) (js "image/png") in
          js "data:" ++ responseMime ++ js ";base64,"
            ++ template base64EncodeString
      | None => scanParts rest generatedImageUrl
      end
  end.

(** [p => p.text] as a predicate. *)
Definition hasText (p : Part) : bool :=
  match text p with
  | Some t => truthy t
  | None => false
  end.

(** [content.parts?.find(p => p.text)?.text]. *)
Definition findTextPart (ps : option (list Part)) : option jsstring :=
  match ps with
  | None => None
  | Some l =>
      match find hasText l with
      | Some p => text p
      | None => None
      end
  end.

Section Client.

(** The SDK call [ai.models.generateContent], and the message of the
    [TypeError] the engine raises on [undefined.parts]. *)
Variable generateContent :
  GenerateContentParameters -> settled (option GenerateContentResponse).
Variable typeErrorMessage : jsstring.

(** The body of the [try] block. *)
Definition editImageAttempt (base64Image : option jsstring)
    (mimeType prompt : jsstring) : settled jsstring :=
  match generateContent (editRequest base64Image mimeType prompt) with
  | Rejected m => Rejected m
  | Fulfilled response =>
      match response with
      | None => throw (js "No response candidates returned from Gemini.")
      | Some r =>
          match candidates r with
          | None | Some [] =>
              throw (js "No response candidates returned from Gemini.")
          | Some (candidate :: _) =>
              match content candidate with
              | None => throw typeErrorMessage
              | Some content =>
                  let generatedImageUrl :=
                    match parts content with
                    | Some ps => scanParts ps []
                    | None => []
                    end in
                  if negb (truthy generatedImageUrl) then
                    match findTextPart (parts content) with
                    | Some (c :: t) =>
                        throw (js "Model returned text instead of image: "
                                 ++ c :: t)
                    | Some [] | None =>
                        throw (js "Model did not return a valid image.")
                    end
                  else Fulfilled generatedImageUrl
              end
          end
      end
  end.

Definition editImageWithGemini (base64Image : option jsstring)
    (mimeType prompt : jsstring) : settled jsstring :=
  match editImageAttempt base64Image mimeType prompt with
  | Fulfilled url => Fulfilled url
  | Rejected m =>
      throw (or_default m (js "Failed to edit image using Gemini."))
  end.

End Client.

Definition extractBase64Data (dataUrl : jsstring) : option jsstring :=
  index (split comma dataUrl) 1.

End geminiService.

(** ** The platform's [FileReader] *)

Module FileReader.

Definition alphabet : jsstring :=
  js "ABCDEFGHIJKLMNOPQRSTUVWXYZabcdefghijklmnopqrstuvwxyz0123456789+/".

Definition pad : code_unit := 61%N.

Definition digit (i : N) : code_unit := nth (N.to_nat i) alphabet pad.

(** Modelled from the spec: the base64 encoding of a byte sequence, which
    the browser computes and the repository does not contain (RFC 4648,
    with padding). *)
Fixpoint base64 (bytes : list byte) : jsstring :=
  match bytes with
  | [] => []
  | [a] =>
      let a := Byte.to_N a in
      [digit (a / 4); digit ((a mod 4) * 16); pad; pad]
  | [a; b] =>
      let a := Byte.to_N a in
      let b := Byte.to_N b in
      [digit (a / 4); digit ((a mod 4) * 16 + b / 16);
       digit ((b mod 16) * 4); pad]
  | a :: b :: c :: rest =>
      let a := Byte.to_N a in
      let b := Byte.to_N b in
      let c := Byte.to_N c in
      digit (a / 4) :: digit ((a mod 4) * 16 + b / 16)
        :: digit ((b mod 16) * 4 + c / 64) :: digit (c mod 64)
        :: base64 rest
  end%N.

(** Modelled from the spec: [toDataUrl], the result of
    [FileReader.readAsDataURL], which is the browser's and not in the
    repository; a data URL is [data:<mimeType>;base64,<payload>]. *)
Definition toDataUrl (mimeType : jsstring) (bytes : list byte) : jsstring :=
  js "data:" ++ mimeType ++ js ";base64," ++ base64 bytes.

End FileReader.

(** ** The state handlers of [App.tsx] *)

Module App.

Import types geminiService.

Definition MAX_FILE_SIZE_MB : N := 5.

Definition ALLOWED_TYPES : list jsstring :=
  [js "image/jpeg"; js "image/png"; js "image/webp"].

(** What the handlers read of a [File]. *)
Record File : Type := {
  type : jsstring;
  size : N
}.

(** The two [useState] cells of the component. *)
Record Component : Type := {
  state : AppState;
  prompt : jsstring
}.

Definition initialState : AppState :=
  {| originalImage := None;
     originalMimeType := [];
     isGenerating := false;
     generatedImage := None;
     error := None |}.

Definition initial : Component := {| state := initialState; prompt := [] |}.

Definition setState (c : Component) (update : AppState -> AppState) : Component :=
  {| state := update (state c); prompt := prompt c |}.

Definition setPrompt (c : Component) (p : jsstring) : Component :=
  {| state := state c; prompt := p |}.

(** [{ ...prev, error: e }] *)
Definition withError (e : jsstring) (prev : AppState) : AppState :=
  {| originalImage := originalImage prev;
     originalMimeType := originalMimeType prev;
     isGenerating := isGenerating prev;
     generatedImage := generatedImage prev;
     error := Some e |}.

Definition invalidTypeMessage : jsstring :=
  js "Invalid file type. Please upload JPEG, PNG, or WebP.".

Definition tooLargeMessage : jsstring :=
  js "File too large. Maximum size is " ++ template_number MAX_FILE_SIZE_MB
    ++ js "MB.".

(** [reader.onloadend]: [result] is [reader.result], [null] after a failed
    read. *)
Definition onloadend (file : File) (result : option jsstring)
    (c : Component) : Component :=
  let c := setState c (fun _ =>
    {| originalImage := result;
       originalMimeType := type file;
       isGenerating := false;
       generatedImage := None;
       error := None |}) in
  if negb (truthy (prompt c))
  then setPrompt c (js "Add a futuristic neon aesthetic")
  else c.

(** [reader.onerror] *)
Definition onerror (c : Component) : Component :=
  setState c (withError (js "Failed to read file.")).

(** [{ ...prev, isGenerating: true, error: null }] *)
Definition startGeneration (prev : AppState) : AppState :=
  {| originalImage := originalImage prev;
     originalMimeType := originalMimeType prev;
     isGenerating := true;
     generatedImage := generatedImage prev;
     error := None |}.

(** [{ ...prev, isGenerating: false, generatedImage: g }] *)
Definition successGeneration (g : GeneratedImage) (prev : AppState) : AppState :=
  {| originalImage := originalImage prev;
     originalMimeType := originalMimeType prev;
     isGenerating := false;
     generatedImage := Some g;
     error := error prev |}.

(** [{ ...prev, isGenerating: false, error: e }] *)
Definition failGeneration (e : jsstring) (prev : AppState) : AppState :=
  {| originalImage := originalImage prev;
     originalMimeType := originalMimeType prev;
     isGenerating := false;
     generatedImage := generatedImage prev;
     error := Some e |}.

Section Handlers.

(** The environment: the reader's result for a file ([None] when the read
    fails), the SDK call, the engine's [TypeError] message, and the clock
    read by [Date.now()] when a generation succeeds. *)
Variable readAsDataURL : File -> option jsstring.
Variable generateContent :
  GenerateContentParameters -> settled (option GenerateContentResponse).
Variable typeErrorMessage : jsstring.
Variable now : N.

(** [file] is [event.target.files?.[0]].  A failed read fires [error] and
    then [loadend]; a successful one fires [loadend] with the result. *)
Definition handleFileUpload (c : Component) (file : option File) : Component :=
  match file with
  | None => c
  | Some file =>
      if negb (includes ALLOWED_TYPES (type file)) then
        setState c (withError invalidTypeMessage)
      else if (MAX_FILE_SIZE_MB * 1024 * 1024 <? size file)%N then
        setState c (withError tooLargeMessage)
      else
        match readAsDataURL file with
        | Some result => onloadend file (Some result) c
        | None => onloadend file None (onerror c)
        end
  end.

(** The new component state, and the requests sent to the API.  The handler
    reads the [state] and [prompt] of the render it was created in; it is run
    here on the current component, with no other update between that render
    and the call, nor between the start and the completion of the request. *)
Definition handleGenerate (c : Component)
    : Component * list GenerateContentParameters :=
  match originalImage (state c) with
  | None => (c, [])
  | Some image =>
      if negb (truthy image) || negb (truthy (trim (prompt c))) then (c, [])
      else
        let started := setState c startGeneration in
        let base64Data := extractBase64Data image in
        let request :=
          editRequest base64Data (originalMimeType (state c)) (prompt c) in
        match editImageWithGemini generateContent typeErrorMessage
                base64Data (originalMimeType (state c)) (prompt c) with
        | Fulfilled generatedImageBase64 =>
            (setState started (successGeneration
               {| imageUrl := generatedImageBase64;
                  types.prompt := prompt c;
                  timestamp := now |}),
             [request])
        | Rejected message =>
            (setState started (failGeneration
               (or_default message
                  (js "Something went wrong while generating the image."))),
             [request])
        end
  end.

Definition handleReset (c : Component) : Component :=
  setPrompt (setState c (fun _ => initialState)) [].

End Handlers.

End App.

Import types geminiService FileReader App.

(** ** Definitions that follow the wording of the specification *)

Module Spec.

(** "the substring after the first comma" *)
Fixpoint substringAfterFirst (sep : code_unit) (s : jsstring) : jsstring :=
  match s with
  | [] => []
  | c :: s' => if N.eqb c sep then s' else substringAfterFirst sep s'
  end.

(** The API resolves the request with a response whose first candidate
    carries the content parts [ps]. *)
Definition respondsWith
    (generateContent :
       GenerateContentParameters -> settled (option GenerateContentResponse))
    (request : GenerateContentParameters) (ps : list Part) : Prop :=
  exists r candidate others,
    generateContent request = Fulfilled (Some r)
    /\ candidates r = Some (candidate :: others)
    /\ content candidate = Some {| parts := Some ps |}.

(** [blob] is the inline data of the first inline-image part of [ps]. *)
Definition firstInlineImage (ps : list Part) (blob : Blob) : Prop :=
  exists before part after,
    ps = before ++ part :: after
    /\ Forall (fun p => inlineData p = None) before
    /\ inlineData part = Some blob.

(** [t] is the text of the first part of [ps] that has a non-empty text. *)
Definition firstNonEmptyText (ps : list Part) (t : jsstring) : Prop :=
  exists before part after,
    ps = before ++ part :: after
    /\ Forall (fun p => text p = None \/ text p = Some []) before
    /\ text part = Some t /\ t <> [].

(** "sets an error and leaves state otherwise unchanged" *)
Definition onlyErrorSet (c c' : Component) (e : jsstring) : Prop :=
  error (state c') = Some e
  /\ originalImage (state c') = originalImage (state c)
  /\ originalMimeType (state c') = originalMimeType (state c)
  /\ isGenerating (state c') = isGenerating (state c)
  /\ generatedImage (state c') = generatedImage (state c)
  /\ prompt c' = prompt c.

(** "5 MB", counted as the application counts it. *)
Definition fiveMB : N := 5 * 1024 * 1024.

End Spec.

Import Spec.

(** ** Sample values *)

Module Samples.

Definition pngUrl : jsstring := js "data:image/png;base64,TWFu".

Definition textPart (t : jsstring) : Part :=
  {| inlineData := None; text := Some t |}.

Definition imagePart (mime : option jsstring) (payload : jsstring) : Part :=
  {| inlineData := Some {| data := Some payload; mimeType := mime |};
     text := None |}.

Definition respond (ps : list Part)
    : GenerateContentParameters -> settled (option GenerateContentResponse) :=
  fun _ => Fulfilled (Some
    {| candidates := Some [ {| content := Some {| parts := Some ps |} |} ] |}).

Definition reject (m : jsstring)
    : GenerateContentParameters -> settled (option GenerateContentResponse) :=
  fun _ => Rejected (Some m).

Definition noReader : File -> option jsstring := fun _ => None.

Definition reader (url : jsstring) : File -> option jsstring :=
  fun _ => Some url.

Definition uploaded : Component :=
  {| state :=
       {| originalImage := Some pngUrl;
          originalMimeType := js "image/png";
          isGenerating := false;
          generatedImage := None;
          error := None |};
     prompt := js "Add a futuristic neon aesthetic" |}.

Definition earlier : GeneratedImage :=
  {| imageUrl := js "data:image/png;base64,AAAA";
     types.prompt := js "Make it look like a pencil sketch";
     timestamp := 1 |}.

(** A session that already shows a result. *)
Definition shown : Component :=
  setState uploaded (successGeneration earlier).

Definition gif : File := {| type := js "image/gif"; size := 6 * 1024 * 1024 |}.
Definition bigPng : File := {| type := js "image/png"; size := 5242881 |}.
Definition smallPng : File := {| type := js "image/png"; size := 5242880 |}.

Definition refusal : list Part := [textPart (js "I cannot edit this image.")].

Definition emptyText : list Part := [textPart []].

Definition pngBlob : Blob :=
  {| data := Some (js "iVBORw0KGgo="); mimeType := None |}.

Definition mixed : list Part :=
  [ textPart (js "Here you go");
    {| inlineData := Some pngBlob; text := None |};
    imagePart (Some (js "image/jpeg")) (js "AAAA") ].

End Samples.

(** ** The rest of [types.ts] and [App.tsx] *)

Module View.

Definition SAMPLE_PROMPTS : list jsstring :=
  [ js "Add a cyberpunk neon glow filter";
    js "Make it look like a pencil sketch";
    js "Remove the background and replace with a solid color";
    js "Add a futuristic interface overlay";
    js "Apply a vintage 80s retro style";
    js "Turn this into a modern website hero section design" ].

(** [ToBoolean] on [string | null]. *)
Definition present (v : option jsstring) : bool :=
  match v with
  | Some s => truthy s
  | None => false
  end.

(** [disabled] of the generate button:
    [!state.originalImage || !prompt.trim() || state.isGenerating]. *)
Definition generateDisabled (c : Component) : bool :=
  negb (present (originalImage (state c)))
  || negb (truthy (trim (prompt c)))
  || isGenerating (state c).

(** The sample prompts are rendered when
    [state.originalImage && !state.isGenerating]. *)
Definition samplePromptsShown (c : Component) : bool :=
  present (originalImage (state c)) && negb (isGenerating (state c)).

(** The anchor element [downloadImage] creates and clicks. *)
Record Anchor : Type := {
  href : jsstring;
  download : jsstring
}.

(** [now] is [Date.now()], an integer number of milliseconds, printed in
    decimal by the template literal.  [None]: the handler returns without
    creating a link. *)
Definition downloadImage (now : N) (c : Component) : option Anchor :=
  match generatedImage (state c) with
  | None => None
  | Some g =>
      Some {| href := imageUrl g;
              download := js "heroforge-edit-" ++ template_number now
                            ++ js ".png" |}
  end.

End View.

Import View.

(** ** [handleGenerate] around its [await], and the session as a machine *)

Module Async.

(** What the suspended handler holds: the [prompt] of its closure and the
    promise of the client. *)
Record Pending : Type := {
  closurePrompt : jsstring;
  outcome : settled jsstring
}.

(** [handleGenerate] up to the [await]: [None] when the guard returns. *)
Definition handleGenerateStart
    (generateContent :
       GenerateContentParameters -> settled (option GenerateContentResponse))
    (typeErrorMessage : jsstring) (c : Component)
    : option (Component * Pending * GenerateContentParameters) :=
  match originalImage (state c) with
  | None => None
  | Some image =>
      if negb (truthy image) || negb (truthy (trim (prompt c))) then None
      else
        let base64Data := extractBase64Data image in
        Some (setState c startGeneration,
              {| closurePrompt := prompt c;
                 outcome :=
                   editImageWithGemini generateContent typeErrorMessage
                     base64Data (originalMimeType (state c)) (prompt c) |},
              editRequest base64Data (originalMimeType (state c)) (prompt c))
  end.

(** [handleGenerate] after the [await]: the functional update is applied to
    the state current at that time. *)
Definition handleGenerateSettle (now : N) (p : Pending) (c : Component)
    : Component :=
  match outcome p with
  | Fulfilled generatedImageBase64 =>
      setState c (successGeneration
        {| imageUrl := generatedImageBase64;
           types.prompt := closurePrompt p;
           timestamp := now |})
  | Rejected message =>
      setState c (failGeneration
        (or_default message
           (js "Something went wrong while generating the image.")))
  end.

(** What can happen to the component, each with the part of the environment
    it reads. *)
Inductive event : Type :=
| FileChosen (readAsDataURL : File -> option jsstring) (file : option File)
| PromptTyped (p : jsstring)
| GenerateClicked
    (generateContent :
       GenerateContentParameters -> settled (option GenerateContentResponse))
    (typeErrorMessage : jsstring)
| RequestSettled (k : nat) (now : N)
| Generated
    (generateContent :
       GenerateContentParameters -> settled (option GenerateContentResponse))
    (typeErrorMessage : jsstring) (now : N)
| ResetClicked.

Record Session : Type := {
  component : Component;
  outstanding : list Pending;
  sent : list GenerateContentParameters
}.

Definition start : Session :=
  {| component := initial; outstanding := []; sent := [] |}.

(** The list without its [k]-th element. *)
Fixpoint without {A : Type} (k : nat) (l : list A) : list A :=
  match l, k with
  | [], _ => []
  | _ :: l', O => l'
  | x :: l', S k' => x :: without k' l'
  end.

(** [GenerateClicked] suspends at the [await]; [RequestSettled k] resumes the
    [k]-th suspended call; [Generated] is a call whose request settles before
    anything else happens. *)
Definition step (s : Session) (e : event) : Session :=
  match e with
  | FileChosen readAsDataURL file =>
      {| component := handleFileUpload readAsDataURL (component s) file;
         outstanding := outstanding s;
         sent := sent s |}
  | PromptTyped p =>
      {| component := setPrompt (component s) p;
         outstanding := outstanding s;
         sent := sent s |}
  | GenerateClicked generateContent typeErrorMessage =>
      match handleGenerateStart generateContent typeErrorMessage
              (component s) with
      | None => s
      | Some (started, pending, request) =>
          {| component := started;
             outstanding := outstanding s ++ [pending];
             sent := sent s ++ [request] |}
      end
  | RequestSettled k now =>
      match nth_error (outstanding s) k with
      | None => s
      | Some pending =>
          {| component := handleGenerateSettle now pending (component s);
             outstanding := without k (outstanding s);
             sent := sent s |}
      end
  | Generated generateContent typeErrorMessage now =>
      let (c, requests) :=
        handleGenerate generateContent typeErrorMessage now (component s) in
      {| component := c;
         outstanding := outstanding s;
         sent := sent s ++ requests |}
  | ResetClicked =>
      {| component := handleReset (component s);
         outstanding := outstanding s;
         sent := sent s |}
  end.

Definition run (s : Session) (events : list event) : Session :=
  fold_left step events s.

(** The events that leave no request outstanding. *)
Definition sequential (e : event) : bool :=
  match e with
  | GenerateClicked _ _ | RequestSettled _ _ => false
  | _ => true
  end.

(** A request as the application sends them: the fixed model, an allowed
    mime type and a prompt that does not trim to the empty string. *)
Definition wellFormedRequest (r : GenerateContentParameters) : Prop :=
  exists base64Data mime p,
    r = editRequest base64Data mime p
    /\ In mime ALLOWED_TYPES
    /\ trim p <> [].

(** An error that is set is not the empty string. *)
Definition errorNotEmpty (c : Component) : Prop :=
  forall e, error (state c) = Some e -> e <> [].

(** A stored source image comes with an allowed mime type. *)
Definition mimeAllowed (c : Component) : Prop :=
  originalImage (state c) <> None ->
  In (originalMimeType (state c)) ALLOWED_TYPES.

(** Nothing is outstanding, and a result is only shown next to its source. *)
Definition settledSession (s : Session) : Prop :=
  outstanding s = []
  /\ isGenerating (state (component s)) = false
  /\ (generatedImage (state (component s)) <> None ->
      originalImage (state (component s)) <> None).

End Async.

Import Async.

(** ** More sample values *)

Module Traces.

Definition respondNull
    : GenerateContentParameters -> settled (option GenerateContentResponse) :=
  fun _ => Fulfilled None.

Definition bare : Candidate := {| content := None |}.

Definition respondBare
    : GenerateContentParameters -> settled (option GenerateContentResponse) :=
  fun _ => Fulfilled (Some {| candidates := Some [bare] |}).

Definition first : Candidate :=
  {| content := Some {| parts := Some Samples.mixed |} |}.

Definition oneCandidate : GenerateContentResponse :=
  {| candidates := Some [first] |}.

Definition twoCandidates : GenerateContentResponse :=
  {| candidates := Some [first; bare] |}.

Definition respondTwo
    : GenerateContentParameters -> settled (option GenerateContentResponse) :=
  fun _ => Fulfilled (Some twoCandidates).

Definition noParts : GenerateContentResponse :=
  {| candidates := Some [ {| content := Some {| parts := Some [] |} |} ] |}.

Definition v8Message : jsstring :=
  js "Cannot read properties of undefined (reading 'parts')".

Definition generatedUrl : jsstring := js "data:image/png;base64,iVBORw0KGgo=".

Definition defaultPrompt : jsstring := js "Add a futuristic neon aesthetic".

Definition chooseGif : event := FileChosen Samples.noReader (Some Samples.gif).

Definition choosePng : event :=
  FileChosen (Samples.reader Samples.pngUrl) (Some Samples.smallPng).

(** Upload, generate, reset: each request settles at once. *)
Definition calm : list event :=
  [choosePng; Generated (Samples.respond Samples.mixed) [] 2; ResetClicked].

(** Upload and click generate: the request is outstanding. *)
Definition waiting : Session :=
  run start [choosePng; GenerateClicked (Samples.respond Samples.mixed) []].

Definition awaited : Pending :=
  {| closurePrompt := defaultPrompt; outcome := Fulfilled generatedUrl |}.

(** Upload, click generate, reset, choose a file that is too large, and only
    then the request settles. *)
Definition overtaken : list event :=
  [ choosePng;
    GenerateClicked (Samples.respond Samples.mixed) [];
    ResetClicked;
    FileChosen Samples.noReader (Some Samples.bigPng);
    RequestSettled 0 3 ].

End Traces.

(** * Properties *)

(** ** Strings *)

Lemma eqb_eq (s t : jsstring) : JS.eqb s t = true <-> s = t.
Proof.
  revert t; induction s as [|c s IH]; intros [|d t]; simpl;
    try (split; [discriminate | discriminate]); try tauto.
  rewrite andb_true_iff, N.eqb_eq, IH.
  split; [intros [-> ->]; reflexivity | intros H; injection H; auto].
Qed.

Lemma includes_In (a : list jsstring) (x : jsstring) :
  includes a x = true <-> In x a.
Proof.
  unfold includes. rewrite existsb_exists. split.
  - intros (y & Hy & E). apply eqb_eq in E. now subst.
  - intros H. exists x. split; [assumption | now apply eqb_eq].
Qed.

Lemma split_without (sep : code_unit) (s : jsstring) :
  ~ In sep s -> split sep s = [s].
Proof.
  induction s as [|c s IH]; simpl; intros H; [reflexivity|].
  destruct (N.eqb_spec c sep) as [E|_].
  - exfalso. apply H. now left.
  - rewrite IH; [reflexivity | intros Hs; apply H; now right].
Qed.

Lemma split_at_first (sep : code_unit) (p r : jsstring) :
  ~ In sep p -> split sep (p ++ sep :: r) = p :: split sep r.
Proof.
  induction p as [|c p IH]; simpl; intros H.
  - now rewrite N.eqb_refl.
  - destruct (N.eqb_spec c sep) as [E|_].
    + exfalso. apply H. now left.
    + rewrite IH; [reflexivity | intros Hs; apply H; now right].
Qed.

Lemma substringAfterFirst_at_first (sep : code_unit) (p r : jsstring) :
  ~ In sep p -> substringAfterFirst sep (p ++ sep :: r) = r.
Proof.
  induction p as [|c p IH]; simpl; intros H.
  - now rewrite N.eqb_refl.
  - destruct (N.eqb_spec c sep) as [E|_].
    + exfalso. apply H. now left.
    + apply IH. intros Hs; apply H; now right.
Qed.

Lemma or_default_truthy (v : option jsstring) (d : jsstring) :
  d <> [] -> or_default v d <> [].
Proof. destruct v as [[|c s]|]; simpl; intros H; try assumption; discriminate. Qed.

Lemma truthy_true (s : jsstring) : truthy s = true <-> s <> [].
Proof. destruct s; simpl; split; intros H; congruence. Qed.

(** ** The image codec helper *)

Lemma list_ind3 {A : Type} (P : list A -> Prop) :
  P [] -> (forall a, P [a]) -> (forall a b, P [a; b]) ->
  (forall a b c rest, P rest -> P (a :: b :: c :: rest)) ->
  forall l, P l.
Proof.
  intros H0 H1 H2 H3.
  fix rec 1.
  intros [|a [|b [|c rest]]];
    [apply H0 | apply H1 | apply H2 | apply H3; apply rec].
Qed.

Lemma alphabet_without_comma : ~ In comma alphabet.
Proof. vm_compute. intuition discriminate. Qed.

Lemma digit_not_comma (i : N) : digit i <> comma.
Proof.
  unfold digit.
  destruct (nth_in_or_default (N.to_nat i) alphabet pad) as [H|H].
  - intros E. rewrite E in H. now apply alphabet_without_comma.
  - rewrite H. discriminate.
Qed.

Lemma base64_without_comma (bytes : list byte) : ~ In comma (base64 bytes).
Proof.
  induction bytes as [|a|a b|a b c rest IH] using list_ind3;
    cbn [base64 In]; intros H;
    repeat match goal with
    | H : _ \/ _ |- _ => destruct H as [H|H]
    | H : digit _ = comma |- _ => now apply digit_not_comma in H
    | H : pad = comma |- _ => discriminate H
    end; auto.
Qed.

Example base64_Man : base64 [x4d; x61; x6e] = js "TWFu".
Proof. reflexivity. Qed.

Example base64_Ma : base64 [x4d; x61] = js "TWE=".
Proof. reflexivity. Qed.

Example base64_M : base64 [x4d] = js "TQ==".
Proof. reflexivity. Qed.

(** C2, as stated, fails: on an input with two commas [extractBase64Data]
    returns only the segment between them, not the whole substring after the
    first comma. *)
Lemma extractBase64Data_stops_at_second_comma :
  extractBase64Data (js "a,b,c") = Some (js "b")
  /\ substringAfterFirst comma (js "a,b,c") = js "b,c"
  /\ extractBase64Data (js "a,b,c")
       <> Some (substringAfterFirst comma (js "a,b,c")).
Proof. repeat split. discriminate. Qed.

Lemma extractBase64Data_no_comma (p : jsstring) :
  ~ In comma p -> extractBase64Data p = None.
Proof. intros Hp. unfold extractBase64Data. now rewrite split_without. Qed.

Lemma extractBase64Data_one_comma (p q : jsstring) :
  ~ In comma p -> ~ In comma q ->
  extractBase64Data (p ++ comma :: q) = Some q.
Proof.
  intros Hp Hq. unfold extractBase64Data.
  now rewrite split_at_first, split_without.
Qed.

Lemma extractBase64Data_more_commas (p q r : jsstring) :
  ~ In comma p -> ~ In comma q ->
  extractBase64Data (p ++ comma :: q ++ comma :: r) = Some q.
Proof.
  intros Hp Hq. unfold extractBase64Data.
  now rewrite split_at_first, split_at_first.
Qed.

(** C2 (amended): [extractBase64Data] returns the second element of the input
    split at commas.  On an input with exactly one comma this is the entire
    substring after that comma; on an input with more commas it is only the
    segment between the first and the second comma; on an input without a
    comma it is [undefined]. *)
Theorem extractBase64Data_segment (p q r : jsstring) :
  ~ In comma p -> ~ In comma q ->
  extractBase64Data p = None
  /\ extractBase64Data (p ++ comma :: q) = Some q
  /\ substringAfterFirst comma (p ++ comma :: q) = q
  /\ extractBase64Data (p ++ comma :: q ++ comma :: r) = Some q.
Proof.
  intros Hp Hq. repeat split.
  - now apply extractBase64Data_no_comma.
  - now apply extractBase64Data_one_comma.
  - now apply substringAfterFirst_at_first.
  - now apply extractBase64Data_more_commas.
Qed.

Lemma extractBase64Data_segment_witness :
  extractBase64Data (js "data:image/png;base64") = None
  /\ extractBase64Data (js "data:image/png;base64" ++ comma :: js "TWFu")
     = Some (js "TWFu")
  /\ substringAfterFirst comma (js "data:image/png;base64" ++ comma :: js "TWFu")
     = js "TWFu"
  /\ extractBase64Data
       (js "data:image/png;base64" ++ comma :: js "TWFu" ++ comma :: js "x")
     = Some (js "TWFu").
Proof.
  apply (extractBase64Data_segment (js "data:image/png;base64") (js "TWFu") (js "x"));
    vm_compute; intuition discriminate.
Defined.

(** C8: for every byte sequence, and every mime type (one without a comma, as
    all mime types the application accepts are), the payload extracted from
    the data URL [data:<mimeType>;base64,<payload>] produced for the bytes is
    their base64 encoding. *)
Theorem extractBase64Data_toDataUrl (mime : jsstring) (bytes : list byte) :
  ~ In comma mime ->
  extractBase64Data (toDataUrl mime bytes) = Some (base64 bytes).
Proof.
  intros Hmime. unfold toDataUrl.
  change (js ";base64,") with (js ";base64" ++ [comma]).
  rewrite !app_assoc, <- app_assoc. cbn [app].
  apply extractBase64Data_one_comma; [|apply base64_without_comma].
  rewrite !in_app_iff. intros [[H|H]|H]; [|contradiction|];
    vm_compute in H; intuition discriminate.
Qed.

Lemma extractBase64Data_toDataUrl_witness :
  extractBase64Data (toDataUrl (js "image/png") [x4d; x61; x6e])
  = Some (base64 [x4d; x61; x6e]).
Proof.
  apply (extractBase64Data_toDataUrl (js "image/png") [x4d; x61; x6e]).
  vm_compute. intuition discriminate.
Defined.

Lemma allowed_types_without_comma (mime : jsstring) :
  In mime ALLOWED_TYPES -> ~ In comma mime.
Proof.
  intros [<-|[<-|[<-|[]]]]; vm_compute; intuition discriminate.
Qed.

(** ** Upload *)

Section Upload.

Variable readAsDataURL : File -> option jsstring.

Lemma messages_differ : invalidTypeMessage <> tooLargeMessage.
Proof. discriminate. Qed.

Lemma tooLargeMessage_text :
  tooLargeMessage = js "File too large. Maximum size is 5MB.".
Proof. reflexivity. Qed.

Lemma setState_withError (c : Component) (e : jsstring) :
  onlyErrorSet c (setState c (withError e)) e.
Proof. repeat split. Qed.

Lemma handleFileUpload_bad_type (c : Component) (file : File) :
  ~ In (type file) ALLOWED_TYPES ->
  handleFileUpload readAsDataURL c (Some file) = setState c (withError invalidTypeMessage).
Proof.
  intros H. unfold App.handleFileUpload.
  destruct (includes ALLOWED_TYPES (type file)) eqn:E; [|reflexivity].
  apply includes_In in E. contradiction.
Qed.

Lemma handleFileUpload_too_large (c : Component) (file : File) :
  In (type file) ALLOWED_TYPES -> (fiveMB < size file)%N ->
  handleFileUpload readAsDataURL c (Some file) = setState c (withError tooLargeMessage).
Proof.
  intros Ht Hs. unfold App.handleFileUpload.
  apply includes_In in Ht. rewrite Ht. cbn [negb].
  apply N.ltb_lt in Hs.
  change fiveMB with (MAX_FILE_SIZE_MB * 1024 * 1024)%N in Hs.
  now rewrite Hs.
Qed.

(** C5 (amended): a file whose mime type is not JPEG, PNG or WebP sets the
    invalid-type message; a file of an allowed type that is larger than
    5 MB (5 * 1024 * 1024 bytes) sets the size-limit message; in both cases
    the message is not empty and the source image and the rest of the state
    are unchanged. *)
Theorem handleFileUpload_rejects (c : Component) (file : File) :
  ~ In (type file) ALLOWED_TYPES \/ (fiveMB < size file)%N ->
  exists e,
    e <> []
    /\ onlyErrorSet c (handleFileUpload readAsDataURL c (Some file)) e
    /\ (~ In (type file) ALLOWED_TYPES -> e = invalidTypeMessage)
    /\ (In (type file) ALLOWED_TYPES -> e = tooLargeMessage).
Proof.
  intros H.
  destruct (includes ALLOWED_TYPES (type file)) eqn:E.
  - apply includes_In in E. destruct H as [H|H]; [contradiction|].
    exists tooLargeMessage. rewrite handleFileUpload_too_large by assumption.
    repeat split; try discriminate. intros Hn. contradiction.
  - assert (Hn : ~ In (type file) ALLOWED_TYPES).
    { intros Hi. apply includes_In in Hi. congruence. }
    exists invalidTypeMessage. rewrite handleFileUpload_bad_type by assumption.
    repeat split; try discriminate. intros Hi. contradiction.
Qed.

(** C10: a file that has a disallowed mime type and also exceeds the size
    limit reports the invalid-type message, never the size-limit one. *)
Theorem handleFileUpload_type_checked_first (c : Component) (file : File) :
  ~ In (type file) ALLOWED_TYPES -> (fiveMB < size file)%N ->
  error (state (handleFileUpload readAsDataURL c (Some file))) = Some invalidTypeMessage
  /\ error (state (handleFileUpload readAsDataURL c (Some file))) <> Some tooLargeMessage.
Proof.
  intros Ht _. rewrite handleFileUpload_bad_type by assumption.
  split; [reflexivity | discriminate].
Qed.

(** C6: for a file of an allowed mime type and of at most 5 MB whose read
    succeeds with the data URL [result], after the upload the source image
    is [result] with the file's mime type, and the error, the generated
    result and the in-flight flag are cleared. *)
Theorem handleFileUpload_accepts (c : Component) (file : File)
    (result : jsstring) :
  In (type file) ALLOWED_TYPES -> (size file <= fiveMB)%N ->
  readAsDataURL file = Some result ->
  state (handleFileUpload readAsDataURL c (Some file))
  = {| originalImage := Some result;
       originalMimeType := type file;
       isGenerating := false;
       generatedImage := None;
       error := None |}.
Proof.
  intros Ht Hs Hr. unfold App.handleFileUpload.
  apply includes_In in Ht. rewrite Ht. cbn [negb].
  apply N.ltb_ge in Hs.
  change fiveMB with (MAX_FILE_SIZE_MB * 1024 * 1024)%N in Hs. rewrite Hs, Hr.
  unfold onloadend. now destruct (truthy _).
Qed.

(** X25: a failed read fires [error] and then [loadend] with a [null]
    result: the update of [onloadend] replaces the one of [onerror], so the
    state ends with no source image and no error. *)
Lemma handleFileUpload_failed_read (c : Component) (file : File) :
  In (type file) ALLOWED_TYPES -> (size file <= fiveMB)%N ->
  readAsDataURL file = None ->
  state (handleFileUpload readAsDataURL c (Some file))
  = {| originalImage := None;
       originalMimeType := type file;
       isGenerating := false;
       generatedImage := None;
       error := None |}.
Proof.
  intros Ht Hs Hr. unfold App.handleFileUpload.
  apply includes_In in Ht. rewrite Ht. cbn [negb].
  apply N.ltb_ge in Hs.
  change fiveMB with (MAX_FILE_SIZE_MB * 1024 * 1024)%N in Hs. rewrite Hs, Hr.
  unfold onloadend. now destruct (truthy _).
Qed.

End Upload.

(** C5, as stated, fails: a file larger than 5 MB whose type is not allowed
    gets the invalid-type message, not a size-limit one. *)
Lemma oversized_gif_gets_type_error :
  (fiveMB < size Samples.gif)%N
  /\ error (state (handleFileUpload Samples.noReader Samples.uploaded
                     (Some Samples.gif)))
     = Some invalidTypeMessage
  /\ error (state (handleFileUpload Samples.noReader Samples.uploaded
                     (Some Samples.gif)))
     <> Some tooLargeMessage.
Proof. repeat split. discriminate. Qed.

Lemma handleFileUpload_rejects_witness :
  exists e,
    e <> []
    /\ onlyErrorSet Samples.uploaded
         (handleFileUpload Samples.noReader Samples.uploaded (Some Samples.bigPng)) e
    /\ (~ In (type Samples.bigPng) ALLOWED_TYPES -> e = invalidTypeMessage)
    /\ (In (type Samples.bigPng) ALLOWED_TYPES -> e = tooLargeMessage).
Proof.
  apply (handleFileUpload_rejects Samples.noReader Samples.uploaded Samples.bigPng).
  right. reflexivity.
Defined.

Lemma handleFileUpload_type_checked_first_witness :
  error (state (handleFileUpload Samples.noReader Samples.uploaded
                  (Some Samples.gif)))
  = Some invalidTypeMessage
  /\ error (state (handleFileUpload Samples.noReader Samples.uploaded
                     (Some Samples.gif)))
     <> Some tooLargeMessage.
Proof.
  apply (handleFileUpload_type_checked_first Samples.noReader Samples.uploaded
           Samples.gif).
  - vm_compute. intuition discriminate.
  - reflexivity.
Defined.

Lemma handleFileUpload_accepts_witness :
  state (handleFileUpload (Samples.reader Samples.pngUrl) Samples.shown
           (Some Samples.smallPng))
  = {| originalImage := Some Samples.pngUrl;
       originalMimeType := js "image/png";
       isGenerating := false;
       generatedImage := None;
       error := None |}.
Proof.
  apply (handleFileUpload_accepts (Samples.reader Samples.pngUrl) Samples.shown
           Samples.smallPng Samples.pngUrl).
  - vm_compute. tauto.
  - vm_compute. discriminate.
  - reflexivity.
Defined.

(** ** The edit-request client *)

Lemma scanParts_no_image (ps : list Part) (url : jsstring) :
  Forall (fun p => inlineData p = None) ps -> scanParts ps url = url.
Proof.
  induction 1 as [|p ps Hp _ IH]; simpl; [reflexivity|].
  now rewrite Hp.
Qed.

Lemma scanParts_first_image (ps : list Part) (blob : Blob) (url : jsstring) :
  firstInlineImage ps blob ->
  scanParts ps url
  = js "data:" ++ or_default (mimeType blob) (js "image/png") ++ js ";base64,"
      ++ template (data blob).
Proof.
  intros (before & part & after & -> & Hb & Hp).
  induction Hb as [|p before Hn _ IH]; simpl.
  - now rewrite Hp.
  - now rewrite Hn.
Qed.

Lemma findTextPart_first (ps : list Part) (t : jsstring) :
  firstNonEmptyText ps t -> findTextPart (Some ps) = Some t.
Proof.
  intros (before & part & after & -> & Hb & Hp & Ht). unfold findTextPart.
  assert (E : find hasText (before ++ part :: after) = Some part).
  { induction Hb as [|p before Hn _ IH]; simpl.
    - unfold hasText. rewrite Hp. destruct t; [contradiction | reflexivity].
    - unfold hasText at 1. now destruct Hn as [-> | ->]. }
  now rewrite E.
Qed.

Lemma findTextPart_none (ps : list Part) :
  Forall (fun p => text p = None \/ text p = Some []) ps ->
  findTextPart (Some ps) = None.
Proof.
  unfold findTextPart. induction 1 as [|p ps Hp _ IH]; simpl; [reflexivity|].
  unfold hasText at 1. now destruct Hp as [-> | ->].
Qed.

Section Generate.

Variable generateContent :
  GenerateContentParameters -> settled (option GenerateContentResponse).
Variable typeErrorMessage : jsstring.
Variable now : N.

Lemma editImageWithGemini_image (base64Image : option jsstring)
    (mime p : jsstring) (ps : list Part) (blob : Blob) :
  respondsWith generateContent (editRequest base64Image mime p) ps ->
  firstInlineImage ps blob ->
  editImageWithGemini generateContent typeErrorMessage base64Image mime p
  = Fulfilled (js "data:" ++ or_default (mimeType blob) (js "image/png")
                 ++ js ";base64," ++ template (data blob)).
Proof.
  intros (r & candidate & others & Hr & Hc & Hct) Hi.
  unfold editImageWithGemini, editImageAttempt.
  rewrite Hr, Hc, Hct. cbn [parts].
  now rewrite (scanParts_first_image ps blob [] Hi).
Qed.

Lemma editImageWithGemini_text (base64Image : option jsstring)
    (mime p : jsstring) (ps : list Part) (t : jsstring) :
  respondsWith generateContent (editRequest base64Image mime p) ps ->
  Forall (fun q => inlineData q = None) ps ->
  firstNonEmptyText ps t ->
  editImageWithGemini generateContent typeErrorMessage base64Image mime p
  = Rejected (Some (js "Model returned text instead of image: " ++ t)).
Proof.
  intros (r & candidate & others & Hr & Hc & Hct) Hn Ht.
  unfold editImageWithGemini, editImageAttempt.
  rewrite Hr, Hc, Hct. cbn [parts].
  rewrite (scanParts_no_image ps [] Hn), (findTextPart_first ps t Ht).
  destruct Ht as (_ & _ & _ & _ & _ & _ & Ht).
  destruct t; [contradiction | reflexivity].
Qed.

Lemma editImageWithGemini_nothing (base64Image : option jsstring)
    (mime p : jsstring) (ps : list Part) :
  respondsWith generateContent (editRequest base64Image mime p) ps ->
  Forall (fun q => inlineData q = None) ps ->
  Forall (fun q => text q = None \/ text q = Some []) ps ->
  editImageWithGemini generateContent typeErrorMessage base64Image mime p
  = Rejected (Some (js "Model did not return a valid image.")).
Proof.
  intros (r & candidate & others & Hr & Hc & Hct) Hn Ht.
  unfold editImageWithGemini, editImageAttempt.
  rewrite Hr, Hc, Hct. cbn [parts].
  now rewrite (scanParts_no_image ps [] Hn), (findTextPart_none ps Ht).
Qed.

(** Whatever the client throws carries a non-empty message. *)
Lemma editImageWithGemini_message (base64Image : option jsstring)
    (mime p : jsstring) (m : option jsstring) :
  editImageWithGemini generateContent typeErrorMessage base64Image mime p
  = Rejected m ->
  exists e, m = Some e /\ e <> [].
Proof.
  unfold editImageWithGemini.
  destruct (editImageAttempt _ _ _ _ _) as [url|m']; [discriminate|].
  unfold throw. intros H. injection H as <-.
  eexists. split; [reflexivity|].
  apply or_default_truthy. discriminate.
Qed.

(** ** Generate *)

(** The completion updates act on the state current when the request settles,
    whatever happened to it in between. *)
Lemma failGeneration_frame (e : jsstring) (prev : AppState) :
  isGenerating (failGeneration e prev) = false
  /\ error (failGeneration e prev) = Some e
  /\ originalImage (failGeneration e prev) = originalImage prev
  /\ originalMimeType (failGeneration e prev) = originalMimeType prev
  /\ generatedImage (failGeneration e prev) = generatedImage prev.
Proof. repeat split. Qed.

Lemma successGeneration_frame (g : GeneratedImage) (prev : AppState) :
  isGenerating (successGeneration g prev) = false
  /\ generatedImage (successGeneration g prev) = Some g
  /\ error (successGeneration g prev) = error prev
  /\ originalImage (successGeneration g prev) = originalImage prev
  /\ originalMimeType (successGeneration g prev) = originalMimeType prev.
Proof. repeat split. Qed.

Lemma handleGenerate_runs (c : Component) (image : jsstring) :
  originalImage (state c) = Some image -> image <> [] ->
  trim (prompt c) <> [] ->
  handleGenerate generateContent typeErrorMessage now c
  = let started := setState c startGeneration in
    let base64Data := extractBase64Data image in
    let request :=
      editRequest base64Data (originalMimeType (state c)) (prompt c) in
    match editImageWithGemini generateContent typeErrorMessage
            base64Data (originalMimeType (state c)) (prompt c) with
    | Fulfilled url =>
        (setState started (successGeneration
           {| imageUrl := url; types.prompt := prompt c; timestamp := now |}),
         [request])
    | Rejected message =>
        (setState started (failGeneration
           (or_default message
              (js "Something went wrong while generating the image."))),
         [request])
    end.
Proof.
  intros Hi Hne Hp. unfold handleGenerate. rewrite Hi.
  apply truthy_true in Hne, Hp. now rewrite Hne, Hp.
Qed.

(** C9: when the source image is absent, or the prompt trims to the empty
    string, [handleGenerate] leaves the component as it is and sends no
    request. *)
Theorem handleGenerate_noop (c : Component) :
  originalImage (state c) = None \/ trim (prompt c) = [] ->
  handleGenerate generateContent typeErrorMessage now c = (c, []).
Proof.
  intros [H|H]; unfold handleGenerate.
  - now rewrite H.
  - destruct (originalImage (state c)) as [image|]; [|reflexivity].
    rewrite H. cbn [truthy negb]. now rewrite orb_true_r.
Qed.

(** C7: when the client rejects a generate attempt, whatever the error, the
    in-flight flag is cleared, the error is set to the (non-empty) message of
    that error, and the source image and its mime type are the ones from
    before the attempt. *)
Theorem handleGenerate_failure (c : Component) (image : jsstring)
    (m : option jsstring) :
  originalImage (state c) = Some image -> image <> [] ->
  trim (prompt c) <> [] ->
  editImageWithGemini generateContent typeErrorMessage
    (extractBase64Data image) (originalMimeType (state c)) (prompt c)
  = Rejected m ->
  let c' := fst (handleGenerate generateContent typeErrorMessage now c) in
  isGenerating (state c') = false
  /\ (exists e, m = Some e /\ e <> [] /\ error (state c') = Some e)
  /\ originalImage (state c') = originalImage (state c)
  /\ originalMimeType (state c') = originalMimeType (state c).
Proof.
  intros Hi Hne Hp Hm. rewrite (handleGenerate_runs c image Hi Hne Hp).
  cbv zeta. rewrite Hm. cbn [fst].
  destruct (editImageWithGemini_message _ _ _ _ Hm) as (e & -> & He).
  repeat split. exists e. repeat split; [assumption|].
  destruct e; [contradiction | reflexivity].
Qed.

(** C3 (amended): when the content parts of the response hold no inline-image
    part, [editImageWithGemini] fails.  If some part has a non-empty text, the
    message is [Model returned text instead of image: <text>] with the text of
    the first such part; if no part has a non-empty text, the message is
    [Model did not return a valid image.].  [handleGenerate] then sets exactly
    that message as the state error. *)
Theorem handleGenerate_no_image_part (c : Component) (image : jsstring)
    (ps : list Part) :
  originalImage (state c) = Some image -> image <> [] ->
  trim (prompt c) <> [] ->
  respondsWith generateContent
    (editRequest (extractBase64Data image) (originalMimeType (state c))
       (prompt c)) ps ->
  Forall (fun p => inlineData p = None) ps ->
  let outcome :=
    editImageWithGemini generateContent typeErrorMessage
      (extractBase64Data image) (originalMimeType (state c)) (prompt c) in
  let c' := fst (handleGenerate generateContent typeErrorMessage now c) in
  (forall t, firstNonEmptyText ps t ->
     outcome = Rejected (Some (js "Model returned text instead of image: " ++ t))
     /\ error (state c')
        = Some (js "Model returned text instead of image: " ++ t))
  /\ (Forall (fun p => text p = None \/ text p = Some []) ps ->
      outcome = Rejected (Some (js "Model did not return a valid image."))
      /\ error (state c') = Some (js "Model did not return a valid image.")).
Proof.
  intros Hi Hne Hp Hr Hn outcome c'. subst outcome c'.
  rewrite (handleGenerate_runs c image Hi Hne Hp). cbv zeta.
  split.
  - intros t Ht.
    rewrite (editImageWithGemini_text _ _ _ ps t Hr Hn Ht).
    split; reflexivity.
  - intros Ht.
    rewrite (editImageWithGemini_nothing _ _ _ ps Hr Hn Ht).
    split; reflexivity.
Qed.

(** C4: when the content parts of the response hold an inline-image part,
    [editImageWithGemini] returns the data URL built from the first such part,
    [data:<mimeType>;base64,<payload>], with [image/png] for the mime type
    when the part gives none; [handleGenerate] then stores a result whose
    image URL is that data URL and whose prompt is the input prompt. *)
Theorem handleGenerate_inline_image (c : Component) (image : jsstring)
    (ps : list Part) (blob : Blob) :
  originalImage (state c) = Some image -> image <> [] ->
  trim (prompt c) <> [] ->
  respondsWith generateContent
    (editRequest (extractBase64Data image) (originalMimeType (state c))
       (prompt c)) ps ->
  firstInlineImage ps blob ->
  let url :=
    js "data:" ++ or_default (mimeType blob) (js "image/png") ++ js ";base64,"
      ++ template (data blob) in
  let c' := fst (handleGenerate generateContent typeErrorMessage now c) in
  editImageWithGemini generateContent typeErrorMessage
    (extractBase64Data image) (originalMimeType (state c)) (prompt c)
  = Fulfilled url
  /\ generatedImage (state c')
     = Some {| imageUrl := url; types.prompt := prompt c; timestamp := now |}
  /\ (forall payload, data blob = Some payload ->
      (mimeType blob = None ->
       url = js "data:image/png;base64," ++ payload)
      /\ (forall mime, mimeType blob = Some mime -> mime <> [] ->
          url = js "data:" ++ mime ++ js ";base64," ++ payload)).
Proof.
  intros Hi Hne Hp Hr Hb url c'. subst c'.
  rewrite (handleGenerate_runs c image Hi Hne Hp). cbv zeta.
  rewrite (editImageWithGemini_image _ _ _ ps blob Hr Hb). fold url.
  repeat split.
  - intros Hm. subst url. now rewrite Hm, H.
  - intros mime Hm Hmime. subst url. rewrite Hm, H.
    destruct mime; [contradiction | reflexivity].
Qed.

(** C1 (amended): a generate attempt clears the error message before it
    starts, and keeps the prior result.  When its request is fulfilled, the
    settlement stores the new result and leaves the error as it is in the
    state at that moment; when its request is rejected, the settlement sets
    the error and leaves the result as it is in the state at that moment.
    Hence, for an attempt whose request settles before any other update of
    the state: if the client fulfils, the result is the new one and the error
    is absent; if the client rejects, the error is set and the result is the
    one from before the attempt; and at most one of the two is set after an
    attempt that started without a result. *)
Theorem handleGenerate_error_and_result (c : Component) (image : jsstring) :
  originalImage (state c) = Some image -> image <> [] ->
  trim (prompt c) <> [] ->
  let started := setState c startGeneration in
  let result :=
    editImageWithGemini generateContent typeErrorMessage
      (extractBase64Data image) (originalMimeType (state c)) (prompt c) in
  let pending := {| closurePrompt := prompt c; outcome := result |} in
  let c' := fst (handleGenerate generateContent typeErrorMessage now c) in
  (handleGenerateStart generateContent typeErrorMessage c
   = Some (started, pending,
           editRequest (extractBase64Data image) (originalMimeType (state c))
             (prompt c))
   /\ error (state started) = None
   /\ generatedImage (state started) = generatedImage (state c))
  /\ (forall k clock url, result = Fulfilled url ->
        generatedImage (state (handleGenerateSettle clock pending k))
        = Some {| imageUrl := url; types.prompt := prompt c;
                  timestamp := clock |}
        /\ error (state (handleGenerateSettle clock pending k))
           = error (state k))
  /\ (forall k clock m, result = Rejected m ->
        error (state (handleGenerateSettle clock pending k))
        = Some (or_default m
                  (js "Something went wrong while generating the image."))
        /\ generatedImage (state (handleGenerateSettle clock pending k))
           = generatedImage (state k))
  /\ (c' = handleGenerateSettle now pending started
      /\ (forall url, result = Fulfilled url ->
            generatedImage (state c')
            = Some {| imageUrl := url; types.prompt := prompt c;
                      timestamp := now |}
            /\ error (state c') = None)
      /\ (forall m, result = Rejected m ->
            error (state c')
            = Some (or_default m
                      (js "Something went wrong while generating the image."))
            /\ generatedImage (state c') = generatedImage (state c))
      /\ (generatedImage (state c) = None ->
          error (state c') = None \/ generatedImage (state c') = None)).
Proof.
  intros Hi Hne Hp started result pending c'.
  assert (Hc : c' = handleGenerateSettle now pending started).
  { subst c'. rewrite (handleGenerate_runs c image Hi Hne Hp). cbv zeta.
    unfold handleGenerateSettle. cbn [outcome closurePrompt]. fold result.
    now destruct result. }
  split; [|split; [|split]].
  - split; [|split; reflexivity].
    unfold handleGenerateStart. rewrite Hi.
    apply truthy_true in Hne, Hp. now rewrite Hne, Hp.
  - intros k clock url Hu. unfold handleGenerateSettle, pending.
    cbn [outcome closurePrompt]. rewrite Hu. split; reflexivity.
  - intros k clock m Hm. unfold handleGenerateSettle, pending.
    cbn [outcome closurePrompt]. rewrite Hm. split; reflexivity.
  - split; [exact Hc|]. rewrite Hc. unfold handleGenerateSettle, pending.
    cbn [outcome closurePrompt]. split; [|split].
    + intros url Hu. rewrite Hu. split; reflexivity.
    + intros m Hm. rewrite Hm. split; reflexivity.
    + intros Hg. destruct result; cbn; [now left | now right].
Qed.

End Generate.

(** C9 at the initial component. *)
Lemma handleGenerate_noop_witness :
  handleGenerate (Samples.reject (js "unreachable")) [] 0 initial = (initial, []).
Proof.
  apply (handleGenerate_noop (Samples.reject (js "unreachable")) [] 0 initial).
  left. reflexivity.
Defined.

Lemma handleGenerate_failure_witness :
  isGenerating (state (fst (handleGenerate (Samples.reject (js "quota exceeded"))
                             [] 2 Samples.uploaded))) = false
  /\ (exists e,
        Some (js "quota exceeded") = Some e /\ e <> []
        /\ error (state (fst (handleGenerate (Samples.reject (js "quota exceeded"))
                                [] 2 Samples.uploaded))) = Some e)
  /\ originalImage (state (fst (handleGenerate (Samples.reject (js "quota exceeded"))
                                 [] 2 Samples.uploaded)))
     = originalImage (state Samples.uploaded)
  /\ originalMimeType (state (fst (handleGenerate
                                    (Samples.reject (js "quota exceeded"))
                                    [] 2 Samples.uploaded)))
     = originalMimeType (state Samples.uploaded).
Proof.
  apply (handleGenerate_failure (Samples.reject (js "quota exceeded")) [] 2
           Samples.uploaded Samples.pngUrl (Some (js "quota exceeded"))).
  - reflexivity.
  - discriminate.
  - vm_compute. discriminate.
  - reflexivity.
Defined.

(** C3, as stated, fails: a response whose only part is a text part with the
    empty text is answered with the no-image message, not with
    [Model returned text instead of image: ]. *)
Lemma empty_text_part_is_not_reported :
  (exists p, In p Samples.emptyText /\ text p = Some [])
  /\ Forall (fun p => inlineData p = None) Samples.emptyText
  /\ editImageWithGemini (Samples.respond Samples.emptyText) []
       (extractBase64Data Samples.pngUrl) (js "image/png")
       (prompt Samples.uploaded)
     = Rejected (Some (js "Model did not return a valid image."))
  /\ editImageWithGemini (Samples.respond Samples.emptyText) []
       (extractBase64Data Samples.pngUrl) (js "image/png")
       (prompt Samples.uploaded)
     <> Rejected (Some (js "Model returned text instead of image: " ++ []))
  /\ error (state (fst (handleGenerate (Samples.respond Samples.emptyText) [] 2
                         Samples.uploaded)))
     = Some (js "Model did not return a valid image.").
Proof.
  repeat split.
  - exists (Samples.textPart []). split; [now left | reflexivity].
  - repeat constructor.
  - discriminate.
Qed.

Lemma respond_respondsWith (ps : list Part) (request : GenerateContentParameters) :
  respondsWith (Samples.respond ps) request ps.
Proof. do 3 eexists. repeat split. Qed.

Lemma handleGenerate_no_image_part_witness :
  (forall t, firstNonEmptyText Samples.refusal t ->
     editImageWithGemini (Samples.respond Samples.refusal) []
       (extractBase64Data Samples.pngUrl)
       (originalMimeType (state Samples.uploaded)) (prompt Samples.uploaded)
     = Rejected (Some (js "Model returned text instead of image: " ++ t))
     /\ error (state (fst (handleGenerate (Samples.respond Samples.refusal) [] 2
                            Samples.uploaded)))
        = Some (js "Model returned text instead of image: " ++ t))
  /\ (Forall (fun p => text p = None \/ text p = Some []) Samples.refusal ->
      editImageWithGemini (Samples.respond Samples.refusal) []
        (extractBase64Data Samples.pngUrl)
        (originalMimeType (state Samples.uploaded)) (prompt Samples.uploaded)
      = Rejected (Some (js "Model did not return a valid image."))
      /\ error (state (fst (handleGenerate (Samples.respond Samples.refusal) [] 2
                             Samples.uploaded)))
         = Some (js "Model did not return a valid image.")).
Proof.
  apply (handleGenerate_no_image_part (Samples.respond Samples.refusal) [] 2
           Samples.uploaded Samples.pngUrl Samples.refusal).
  - reflexivity.
  - discriminate.
  - vm_compute. discriminate.
  - apply respond_respondsWith.
  - repeat constructor.
Defined.

Example refusal_is_surfaced :
  error (state (fst (handleGenerate (Samples.respond Samples.refusal) [] 2
                       Samples.uploaded)))
  = Some (js "Model returned text instead of image: I cannot edit this image.").
Proof. reflexivity. Qed.

Lemma mixed_firstInlineImage : firstInlineImage Samples.mixed Samples.pngBlob.
Proof.
  exists [Samples.textPart (js "Here you go")].
  do 2 eexists. repeat split. repeat constructor.
Qed.

Lemma handleGenerate_inline_image_witness :
  editImageWithGemini (Samples.respond Samples.mixed) []
    (extractBase64Data Samples.pngUrl)
    (originalMimeType (state Samples.uploaded)) (prompt Samples.uploaded)
  = Fulfilled (js "data:image/png;base64,iVBORw0KGgo=")
  /\ generatedImage (state (fst (handleGenerate (Samples.respond Samples.mixed)
                                 [] 2 Samples.uploaded)))
     = Some {| imageUrl := js "data:image/png;base64,iVBORw0KGgo=";
               types.prompt := prompt Samples.uploaded;
               timestamp := 2 |}
  /\ (forall payload, data Samples.pngBlob = Some payload ->
      (mimeType Samples.pngBlob = None ->
       js "data:image/png;base64,iVBORw0KGgo="
       = js "data:image/png;base64," ++ payload)
      /\ (forall mime, mimeType Samples.pngBlob = Some mime -> mime <> [] ->
          js "data:image/png;base64,iVBORw0KGgo="
          = js "data:" ++ mime ++ js ";base64," ++ payload)).
Proof.
  apply (handleGenerate_inline_image (Samples.respond Samples.mixed) [] 2
           Samples.uploaded Samples.pngUrl Samples.mixed Samples.pngBlob).
  - reflexivity.
  - discriminate.
  - vm_compute. discriminate.
  - apply respond_respondsWith.
  - apply mixed_firstInlineImage.
Defined.

(** C1, as stated, fails: an attempt that starts from a state showing a result
    does not clear that result, and when it fails both the error and the
    earlier result are set. *)
Lemma failed_attempt_keeps_earlier_result :
  generatedImage (state (setState Samples.shown startGeneration))
  = Some Samples.earlier
  /\ error (state (fst (handleGenerate (Samples.reject (js "quota exceeded"))
                         [] 2 Samples.shown)))
     = Some (js "quota exceeded")
  /\ generatedImage (state (fst (handleGenerate
                                  (Samples.reject (js "quota exceeded"))
                                  [] 2 Samples.shown)))
     = Some Samples.earlier.
Proof. repeat split. Qed.

Lemma handleGenerate_error_and_result_witness :
  let c := Samples.shown in
  let started := setState c startGeneration in
  let result :=
    editImageWithGemini (Samples.respond Samples.mixed) []
      (extractBase64Data Samples.pngUrl) (originalMimeType (state c))
      (prompt c) in
  let pending := {| closurePrompt := prompt c; outcome := result |} in
  let c' := fst (handleGenerate (Samples.respond Samples.mixed) [] 2 c) in
  (handleGenerateStart (Samples.respond Samples.mixed) [] c
   = Some (started, pending,
           editRequest (extractBase64Data Samples.pngUrl)
             (originalMimeType (state c)) (prompt c))
   /\ error (state started) = None
   /\ generatedImage (state started) = generatedImage (state c))
  /\ (forall k clock url, result = Fulfilled url ->
        generatedImage (state (handleGenerateSettle clock pending k))
        = Some {| imageUrl := url; types.prompt := prompt c;
                  timestamp := clock |}
        /\ error (state (handleGenerateSettle clock pending k))
           = error (state k))
  /\ (forall k clock m, result = Rejected m ->
        error (state (handleGenerateSettle clock pending k))
        = Some (or_default m
                  (js "Something went wrong while generating the image."))
        /\ generatedImage (state (handleGenerateSettle clock pending k))
           = generatedImage (state k))
  /\ (c' = handleGenerateSettle 2 pending started
      /\ (forall url, result = Fulfilled url ->
            generatedImage (state c')
            = Some {| imageUrl := url; types.prompt := prompt c;
                      timestamp := 2 |}
            /\ error (state c') = None)
      /\ (forall m, result = Rejected m ->
            error (state c')
            = Some (or_default m
                      (js "Something went wrong while generating the image."))
            /\ generatedImage (state c') = generatedImage (state c))
      /\ (generatedImage (state c) = None ->
          error (state c') = None \/ generatedImage (state c') = None)).
Proof.
  apply (handleGenerate_error_and_result (Samples.respond Samples.mixed) [] 2
           Samples.shown Samples.pngUrl).
  - reflexivity.
  - discriminate.
  - vm_compute. discriminate.
Defined.

Lemma extractBase64Data_dataUrl (mime : jsstring) (bytes : list byte) :
  ~ In comma mime ->
  extractBase64Data (toDataUrl mime bytes) = Some (base64 bytes).
Proof.
  intros Hmime. unfold toDataUrl.
  change (js ";base64,") with (js ";base64" ++ [comma]).
  rewrite !app_assoc, <- app_assoc. cbn [app].
  apply extractBase64Data_one_comma; [|apply base64_without_comma].
  rewrite !in_app_iff. intros [[H|H]|H]; [|contradiction|];
    vm_compute in H; intuition discriminate.
Qed.

Lemma extractBase64Data_toDataUrl_allowed (mime : jsstring) (bytes : list byte) :
  In mime ALLOWED_TYPES ->
  extractBase64Data (toDataUrl mime bytes) = Some (base64 bytes).
Proof.
  intros H. apply extractBase64Data_dataUrl.
  now apply allowed_types_without_comma.
Qed.

(** * Further properties of the code *)

(** ** The client: the other ways a request ends *)

Section ClientEdges.

Variable generateContent :
  GenerateContentParameters -> settled (option GenerateContentResponse).
Variable typeErrorMessage : jsstring.

(** X1: a [null] response, or one whose [candidates] is missing or empty, is
    rejected with [No response candidates returned from Gemini.]. *)
Theorem editImageWithGemini_no_candidates (base64Image : option jsstring)
    (mime p : jsstring) :
  generateContent (editRequest base64Image mime p) = Fulfilled None
  \/ (exists r,
        generateContent (editRequest base64Image mime p) = Fulfilled (Some r)
        /\ (candidates r = None \/ candidates r = Some [])) ->
  editImageWithGemini generateContent typeErrorMessage base64Image mime p
  = Rejected (Some (js "No response candidates returned from Gemini.")).
Proof.
  unfold editImageWithGemini, editImageAttempt.
  intros [H | (r & H & [Hc | Hc])]; rewrite H; try rewrite Hc; reflexivity.
Qed.

(** X2: when the SDK call itself fails, the client rejects with the message
    of that failure if it has a non-empty one, and with
    [Failed to edit image using Gemini.] otherwise. *)
Theorem editImageWithGemini_transport_failure (base64Image : option jsstring)
    (mime p : jsstring) (m : option jsstring) :
  generateContent (editRequest base64Image mime p) = Rejected m ->
  (forall e, m = Some e -> e <> [] ->
     editImageWithGemini generateContent typeErrorMessage base64Image mime p
     = Rejected (Some e))
  /\ (m = None \/ m = Some [] ->
      editImageWithGemini generateContent typeErrorMessage base64Image mime p
      = Rejected (Some (js "Failed to edit image using Gemini."))).
Proof.
  intros H. unfold editImageWithGemini, editImageAttempt. rewrite H. split.
  - intros e -> He. destruct e; [contradiction | reflexivity].
  - intros [-> | ->]; reflexivity.
Qed.

Lemma scanParts_cases (ps : list Part) :
  Forall (fun p => inlineData p = None) ps
  \/ exists blob, firstInlineImage ps blob.
Proof.
  induction ps as [|p ps IH].
  - left. constructor.
  - destruct (inlineData p) as [blob|] eqn:E.
    + right. exists blob, [], p, ps. repeat split; [constructor | assumption].
    + destruct IH as [IH | (blob & before & part & after & -> & Hb & Hp)].
      * left. now constructor.
      * right. exists blob, (p :: before), part, after.
        repeat split; [now constructor | assumption].
Qed.

(** X3: the client fulfils only when the first candidate's parts hold an
    inline-image part, and then with the data URL of the first one; it never
    returns anything else, in particular never the empty string. *)
Theorem editImageWithGemini_fulfilled_only_with_image
    (base64Image : option jsstring) (mime p url : jsstring) :
  editImageWithGemini generateContent typeErrorMessage base64Image mime p
  = Fulfilled url ->
  exists ps blob,
    respondsWith generateContent (editRequest base64Image mime p) ps
    /\ firstInlineImage ps blob
    /\ url = js "data:" ++ or_default (mimeType blob) (js "image/png")
               ++ js ";base64," ++ template (data blob)
    /\ url <> [].
Proof.
  unfold editImageWithGemini, editImageAttempt.
  destruct (generateContent _) as [[r|]|m] eqn:Hr; try discriminate.
  destruct (candidates r) as [[|candidate others]|] eqn:Hc; try discriminate.
  destruct (content candidate) as [[[ps|]]|] eqn:Hct; cbn [parts];
    try discriminate.
  destruct (scanParts_cases ps) as [Hn | (blob & Hb)].
  - rewrite (scanParts_no_image ps [] Hn). cbn [truthy negb].
    destruct (findTextPart (Some ps)) as [[|c t]|]; discriminate.
  - rewrite (scanParts_first_image ps blob [] Hb).
    intros H. injection H as <-.
    exists ps, blob. repeat split; try assumption; try discriminate.
    exists r, candidate, others. repeat split; assumption.
Qed.

(** X4: only the first candidate of a response is read: two responses with
    the same first candidate get the same outcome. *)
Theorem editImageWithGemini_first_candidate_only
    (other : GenerateContentParameters -> settled (option GenerateContentResponse))
    (base64Image : option jsstring) (mime p : jsstring)
    (r r' : GenerateContentResponse) (candidate : Candidate)
    (rest rest' : list Candidate) :
  generateContent (editRequest base64Image mime p) = Fulfilled (Some r) ->
  other (editRequest base64Image mime p) = Fulfilled (Some r') ->
  candidates r = Some (candidate :: rest) ->
  candidates r' = Some (candidate :: rest') ->
  editImageWithGemini generateContent typeErrorMessage base64Image mime p
  = editImageWithGemini other typeErrorMessage base64Image mime p.
Proof.
  intros H H' Hc Hc'. unfold editImageWithGemini, editImageAttempt.
  now rewrite H, H', Hc, Hc'.
Qed.

(** X5: a first candidate whose content has no [parts], or an empty array of
    them, is rejected with [Model did not return a valid image.]. *)
Theorem editImageWithGemini_no_parts (base64Image : option jsstring)
    (mime p : jsstring) (r : GenerateContentResponse) (candidate : Candidate)
    (rest : list Candidate) :
  generateContent (editRequest base64Image mime p) = Fulfilled (Some r) ->
  candidates r = Some (candidate :: rest) ->
  content candidate = Some {| parts := None |}
  \/ content candidate = Some {| parts := Some [] |} ->
  editImageWithGemini generateContent typeErrorMessage base64Image mime p
  = Rejected (Some (js "Model did not return a valid image.")).
Proof.
  intros H Hc Hct. unfold editImageWithGemini, editImageAttempt.
  rewrite H, Hc. destruct Hct as [-> | ->]; reflexivity.
Qed.

(** X6: a first candidate without [content] makes the client fail on
    [content.parts]: it rejects with the engine's message for that
    [TypeError], or with [Failed to edit image using Gemini.] if that message
    is empty; the no-image message is not used. *)
Theorem editImageWithGemini_no_content (base64Image : option jsstring)
    (mime p : jsstring) (r : GenerateContentResponse) (candidate : Candidate)
    (rest : list Candidate) :
  generateContent (editRequest base64Image mime p) = Fulfilled (Some r) ->
  candidates r = Some (candidate :: rest) ->
  content candidate = None ->
  editImageWithGemini generateContent typeErrorMessage base64Image mime p
  = Rejected (Some (or_default (Some typeErrorMessage)
                      (js "Failed to edit image using Gemini."))).
Proof.
  intros H Hc Hct. unfold editImageWithGemini, editImageAttempt.
  now rewrite H, Hc, Hct.
Qed.

End ClientEdges.

(** ** [extractBase64Data] on every input *)

Lemma first_separator (sep : code_unit) (s : jsstring) :
  In sep s -> exists p r, s = p ++ sep :: r /\ ~ In sep p.
Proof.
  induction s as [|c s IH]; [intros []|]. intros H.
  destruct (N.eq_dec c sep) as [->|Hne].
  - exists [], s. split; [reflexivity | intros []].
  - destruct H as [H|H]; [contradiction|].
    destruct (IH H) as (p & r & -> & Hp).
    exists (c :: p), r. split; [reflexivity|].
    intros [E|E]; [now apply Hne | now apply Hp].
Qed.

Lemma In_dec_code_unit (sep : code_unit) (s : jsstring) :
  In sep s \/ ~ In sep s.
Proof. destruct (in_dec N.eq_dec sep s); [now left | now right]. Qed.

(** X7: [extractBase64Data] is [undefined] exactly on the inputs that have no
    comma. *)
Theorem extractBase64Data_undefined_iff (s : jsstring) :
  extractBase64Data s = None <-> ~ In comma s.
Proof.
  split.
  - intros H Hin. destruct (first_separator comma s Hin) as (p & r & -> & Hp).
    unfold extractBase64Data in H. rewrite split_at_first in H by assumption.
    destruct r as [|c r]; simpl in H; [discriminate|].
    destruct (N.eqb c comma); [discriminate|].
    destruct (split comma r); discriminate.
  - apply extractBase64Data_no_comma.
Qed.

(** X8: [extractBase64Data] returns [q] exactly when the input is a
    comma-free prefix, a comma, [q], and then either nothing or a further
    comma and anything; so the result never holds a comma. *)
Theorem extractBase64Data_defined_iff (s q : jsstring) :
  extractBase64Data s = Some q
  <-> exists p r,
        s = p ++ comma :: q ++ r
        /\ ~ In comma p /\ ~ In comma q
        /\ (r = [] \/ exists r', r = comma :: r').
Proof.
  split.
  - intros H.
    destruct (In_dec_code_unit comma s) as [Hin|Hn];
      [|rewrite (extractBase64Data_no_comma s Hn) in H; discriminate].
    destruct (first_separator comma s Hin) as (p & rest & -> & Hp).
    exists p.
    destruct (In_dec_code_unit comma rest) as [Hin'|Hn'].
    + destruct (first_separator comma rest Hin') as (q' & r' & -> & Hq).
      rewrite (extractBase64Data_more_commas p q' r' Hp Hq) in H.
      injection H as <-. exists (comma :: r'). repeat split; try assumption.
      right. now exists r'.
    + rewrite (extractBase64Data_one_comma p rest Hp Hn') in H.
      injection H as <-. exists []. rewrite app_nil_r.
      repeat split; try assumption. now left.
  - intros (p & r & -> & Hp & Hq & [-> | (r' & ->)]).
    + rewrite app_nil_r. now apply extractBase64Data_one_comma.
    + now apply extractBase64Data_more_commas.
Qed.

(** ** The guard of [handleGenerate] *)

Lemma trimStart_nil_iff (s : jsstring) :
  trimStart s = [] <-> forallb is_white_space s = true.
Proof.
  induction s as [|c s IH]; simpl; [tauto|].
  destruct (is_white_space c); simpl; [exact IH|].
  split; discriminate.
Qed.

Lemma trimStart_suffix (s : jsstring) :
  exists p, s = p ++ trimStart s /\ forallb is_white_space p = true.
Proof.
  induction s as [|c s (p & IH & Hp)]; simpl.
  - now exists [].
  - destruct (is_white_space c) eqn:E.
    + exists (c :: p). simpl. rewrite E, Hp. split; [now f_equal | reflexivity].
    + now exists [].
Qed.

Lemma trimStart_head (s t : jsstring) (c : code_unit) :
  trimStart s = c :: t -> is_white_space c = false.
Proof.
  induction s as [|d s IH]; simpl; [discriminate|].
  destruct (is_white_space d) eqn:E; [exact IH|].
  intros H. injection H as -> _. exact E.
Qed.

Lemma trim_nil_iff (s : jsstring) :
  trim s = [] <-> forallb is_white_space s = true.
Proof.
  unfold trim, trimEnd. split.
  - intros H.
    assert (H' : trimStart (rev (trimStart s)) = []).
    { destruct (trimStart (rev (trimStart s))); [reflexivity|].
      apply (f_equal (@List.length _)) in H. rewrite length_rev in H.
      discriminate. }
    apply trimStart_nil_iff in H'.
    destruct (trimStart s) as [|c t] eqn:E; [now apply trimStart_nil_iff|].
    apply trimStart_head in E.
    rewrite forallb_forall in H'.
    rewrite (H' c) in E; [discriminate|].
    apply in_rev. rewrite rev_involutive. now left.
  - intros H. apply trimStart_nil_iff in H. now rewrite H.
Qed.

Lemma trim_truthy_iff (s : jsstring) :
  truthy (trim s) = true
  <-> exists c, In c s /\ is_white_space c = false.
Proof.
  rewrite truthy_true. split.
  - intros H.
    destruct (forallb is_white_space s) eqn:E.
    + apply trim_nil_iff in E. contradiction.
    + apply not_true_iff_false in E.
      destruct (existsb (fun c => negb (is_white_space c)) s) eqn:X.
      * apply existsb_exists in X. destruct X as (c & Hc & Hw).
        exists c. split; [assumption | now apply negb_true_iff].
      * exfalso. apply E. apply forallb_forall. intros c Hc.
        destruct (is_white_space c) eqn:W; [reflexivity|].
        assert (existsb (fun c => negb (is_white_space c)) s = true).
        { apply existsb_exists. exists c. now rewrite W. }
        congruence.
  - intros (c & Hc & Hw) H. apply trim_nil_iff in H.
    rewrite forallb_forall in H. rewrite (H c Hc) in Hw. discriminate.
Qed.

Section Guard.

Variable generateContent :
  GenerateContentParameters -> settled (option GenerateContentResponse).
Variable typeErrorMessage : jsstring.
Variable now : N.

(** X9: [handleGenerate] sends exactly one request, for the payload of the
    source image, its mime type and the prompt as typed, when the source image
    is a non-empty string and the prompt holds a character that is not white
    space; in every other case it sends none and changes nothing. *)
Theorem handleGenerate_requests (c : Component) :
  (handleGenerate generateContent typeErrorMessage now c = (c, [])
   /\ (present (originalImage (state c)) = false
       \/ forallb is_white_space (prompt c) = true))
  \/ (exists image ch,
        originalImage (state c) = Some image /\ image <> []
        /\ In ch (prompt c) /\ is_white_space ch = false
        /\ snd (handleGenerate generateContent typeErrorMessage now c)
           = [editRequest (extractBase64Data image)
                (originalMimeType (state c)) (prompt c)]).
Proof.
  destruct (originalImage (state c)) as [image|] eqn:Hi.
  - destruct (truthy image) eqn:Ht.
    + destruct (truthy (trim (prompt c))) eqn:Hp.
      * right. destruct (proj1 (trim_truthy_iff _) Hp) as (ch & Hin & Hw).
        apply truthy_true in Ht, Hp.
        exists image, ch. repeat split; try assumption.
        rewrite (handleGenerate_runs _ _ _ c image Hi Ht Hp). cbv zeta.
        now destruct (editImageWithGemini _ _ _ _ _).
      * left. split.
        -- unfold handleGenerate. now rewrite Hi, Ht, Hp.
        -- right. apply trim_nil_iff. now destruct (trim (prompt c)).
    + left. split.
      * unfold handleGenerate. now rewrite Hi, Ht.
      * left. unfold present. exact Ht.
  - left. split.
    + unfold handleGenerate. now rewrite Hi.
    + now left.
Qed.

(** X10: whatever the outcome, [handleGenerate] changes neither the source
    image, nor its mime type, nor the prompt; and it never returns with the
    in-flight flag newly set. *)
Theorem handleGenerate_frame (c : Component) :
  let c' := fst (handleGenerate generateContent typeErrorMessage now c) in
  originalImage (state c') = originalImage (state c)
  /\ originalMimeType (state c') = originalMimeType (state c)
  /\ prompt c' = prompt c
  /\ (isGenerating (state c') = true -> isGenerating (state c) = true).
Proof.
  unfold handleGenerate.
  destruct (originalImage (state c)) as [image|] eqn:Hi.
  - destruct (negb (truthy image) || negb (truthy (trim (prompt c)))).
    + cbn. repeat split; auto.
    + destruct (editImageWithGemini _ _ _ _ _); cbn; repeat split;
        auto; discriminate.
  - cbn. repeat split; auto.
Qed.

(** X11: the generate button is enabled exactly when no request is in flight
    and [handleGenerate] would send one. *)
Theorem generateDisabled_iff (c : Component) :
  generateDisabled c = false
  <-> isGenerating (state c) = false
      /\ snd (handleGenerate generateContent typeErrorMessage now c) <> [].
Proof.
  unfold generateDisabled, present, handleGenerate.
  destruct (originalImage (state c)) as [image|]; cbn [negb orb snd].
  - destruct (truthy image); cbn [negb orb snd].
    + destruct (truthy (trim (prompt c))); cbn [negb orb snd].
      * destruct (editImageWithGemini _ _ _ _ _); cbn [snd];
          (split; [intros H; split; [assumption | discriminate] | tauto]).
      * split; [discriminate | intros [_ H]; now contradiction H].
    + split; [discriminate | intros [_ H]; now contradiction H].
  - split; [discriminate | intros [_ H]; now contradiction H].
Qed.

(** X12: [handleGenerate] itself does not look at the in-flight flag: called
    on a state whose request is outstanding, it sends the same request
    again. *)
Theorem handleGenerate_ignores_flag (c : Component) :
  snd (handleGenerate generateContent typeErrorMessage now
         (setState c startGeneration))
  = snd (handleGenerate generateContent typeErrorMessage now c).
Proof.
  unfold handleGenerate. cbn [setState state prompt startGeneration
    originalImage originalMimeType].
  destruct (originalImage (state c)) as [image|]; [|reflexivity].
  destruct (negb (truthy image) || negb (truthy (trim (prompt c))));
    [reflexivity|].
  now destruct (editImageWithGemini _ _ _ _ _).
Qed.

End Guard.

(** ** Reset and download *)

Lemma js_inj (s t : string) : js s = js t -> s = t.
Proof.
  unfold js. intros H.
  rewrite <- (string_of_list_ascii_of_string s),
          <- (string_of_list_ascii_of_string t).
  f_equal. revert H.
  generalize (list_ascii_of_string s) (list_ascii_of_string t).
  induction l as [|a l IH]; intros [|b l']; simpl; try discriminate;
    [reflexivity|].
  intros H. injection H as Hab Hl. f_equal; [|now apply IH].
  now rewrite <- (ascii_N_embedding a), <- (ascii_N_embedding b), Hab.
Qed.

Lemma to_uint_not_Nil (n : N) : N.to_uint n <> Decimal.Nil.
Proof.
  destruct n as [|p]; [discriminate|].
  apply DecimalPos.Unsigned.to_uint_nonnil.
Qed.

Lemma template_number_inj (n m : N) :
  template_number n = template_number m -> n = m.
Proof.
  unfold template_number. intros H. apply js_inj in H.
  apply DecimalN.Unsigned.to_uint_inj.
  assert (E : Some (N.to_uint n) = Some (N.to_uint m)).
  { rewrite <- (NilZero.usu _ (to_uint_not_Nil n)),
            <- (NilZero.usu _ (to_uint_not_Nil m)).
    now rewrite H. }
  now injection E.
Qed.

Lemma download_name_inj (n m : N) :
  js "heroforge-edit-" ++ template_number n ++ js ".png"
  = js "heroforge-edit-" ++ template_number m ++ js ".png" ->
  n = m.
Proof.
  intros E. apply app_inv_head, app_inv_tail in E.
  now apply template_number_inj.
Qed.

Section ResetDownload.

Variable generateContent :
  GenerateContentParameters -> settled (option GenerateContentResponse).
Variable typeErrorMessage : jsstring.
Variable now : N.

(** X13: after a reset, whatever the state was, the component is the initial
    one, the generate button is disabled, [handleGenerate] sends nothing and
    [downloadImage] creates no link. *)
Theorem handleReset_then (c : Component) (clock : N) :
  handleReset c = initial
  /\ generateDisabled (handleReset c) = true
  /\ handleGenerate generateContent typeErrorMessage now (handleReset c)
     = (initial, [])
  /\ downloadImage clock (handleReset c) = None.
Proof. repeat split. Qed.

(** X14: [downloadImage] creates a link exactly when a result is stored; the
    link points at the stored image URL, and links created at different
    clock values have different file names. *)
Theorem downloadImage_link (c c' : Component) (clock clock' : N) :
  (downloadImage clock c = None <-> generatedImage (state c) = None)
  /\ (forall a, downloadImage clock c = Some a ->
        exists g, generatedImage (state c) = Some g /\ href a = imageUrl g)
  /\ (forall a a',
        downloadImage clock c = Some a -> downloadImage clock' c' = Some a' ->
        download a = download a' -> clock = clock').
Proof.
  unfold downloadImage. repeat split.
  - now destruct (generatedImage (state c)).
  - intros H. now rewrite H.
  - intros a H. destruct (generatedImage (state c)) as [g|]; [|discriminate].
    injection H as <-. now exists g.
  - intros a a' H H'.
    destruct (generatedImage (state c)); [|discriminate].
    destruct (generatedImage (state c')); [|discriminate].
    injection H as <-. injection H' as <-. intros E.
    apply download_name_inj. exact E.
Qed.

(** X15: after a generation that succeeded, [downloadImage] links to the URL
    the client returned, under a name that ends in [.png] whatever the mime
    type in that URL. *)
Theorem downloadImage_after_generate (c : Component) (image url : jsstring)
    (clock : N) :
  originalImage (state c) = Some image -> image <> [] ->
  trim (prompt c) <> [] ->
  editImageWithGemini generateContent typeErrorMessage
    (extractBase64Data image) (originalMimeType (state c)) (prompt c)
  = Fulfilled url ->
  downloadImage clock
    (fst (handleGenerate generateContent typeErrorMessage now c))
  = Some {| href := url;
            download := js "heroforge-edit-" ++ template_number clock
                          ++ js ".png" |}.
Proof.
  intros Hi Hne Hp Hu.
  rewrite (handleGenerate_runs _ _ _ c image Hi Hne Hp). cbv zeta.
  now rewrite Hu.
Qed.

End ResetDownload.

(** ** Upload: the prompt, and upload followed by generate *)

Section UploadMore.

Variable readAsDataURL : File -> option jsstring.

Lemma handleFileUpload_loadend (c : Component) (file : File) :
  In (type file) ALLOWED_TYPES -> (size file <= fiveMB)%N ->
  handleFileUpload readAsDataURL c (Some file)
  = match readAsDataURL file with
    | Some result => onloadend file (Some result) c
    | None => onloadend file None (onerror c)
    end.
Proof.
  intros Ht Hs. unfold handleFileUpload.
  apply includes_In in Ht. rewrite Ht. cbn [negb].
  apply N.ltb_ge in Hs.
  change fiveMB with (MAX_FILE_SIZE_MB * 1024 * 1024)%N in Hs.
  now rewrite Hs.
Qed.

Lemma onloadend_prompt (file : File) (result : option jsstring)
    (c : Component) :
  prompt (onloadend file result c)
  = if truthy (prompt c) then prompt c
    else js "Add a futuristic neon aesthetic".
Proof.
  unfold onloadend. cbn [setState prompt].
  now destruct (truthy (prompt c)).
Qed.

(** X16: an upload that passes both checks keeps a prompt the user has typed
    and pre-fills an empty one with [Add a futuristic neon aesthetic],
    whether or not the read succeeds. *)
Theorem handleFileUpload_prompt (c : Component) (file : File) :
  In (type file) ALLOWED_TYPES -> (size file <= fiveMB)%N ->
  (prompt c <> [] ->
   prompt (handleFileUpload readAsDataURL c (Some file)) = prompt c)
  /\ (prompt c = [] ->
      prompt (handleFileUpload readAsDataURL c (Some file))
      = js "Add a futuristic neon aesthetic").
Proof.
  intros Ht Hs. rewrite (handleFileUpload_loadend c file Ht Hs).
  assert (E : prompt (match readAsDataURL file with
                      | Some result => onloadend file (Some result) c
                      | None => onloadend file None (onerror c)
                      end)
              = if truthy (prompt c) then prompt c
                else js "Add a futuristic neon aesthetic").
  { destruct (readAsDataURL file);
      [apply onloadend_prompt | exact (onloadend_prompt file None (onerror c))]. }
  rewrite E. split; intros H.
  - apply truthy_true in H. now rewrite H.
  - now rewrite H.
Qed.

(** X17: [handleFileUpload] never stores a generated result and never sets
    the in-flight flag; and when it changes the source image, the file has
    passed both checks. *)
Theorem handleFileUpload_frame (c : Component) (file : option File) :
  let c' := handleFileUpload readAsDataURL c file in
  (isGenerating (state c') = true -> isGenerating (state c) = true)
  /\ (forall g, generatedImage (state c') = Some g ->
        generatedImage (state c) = Some g)
  /\ (originalImage (state c') <> originalImage (state c) ->
      exists f, file = Some f /\ In (type f) ALLOWED_TYPES
                /\ (size f <= fiveMB)%N).
Proof.
  destruct file as [file|]; [|cbn; repeat split; auto; intros H; now contradiction H].
  cbn zeta. unfold handleFileUpload.
  destruct (includes ALLOWED_TYPES (type file)) eqn:Ht; cbn [negb].
  - destruct (MAX_FILE_SIZE_MB * 1024 * 1024 <? size file)%N eqn:Hs.
    + cbn. repeat split; auto. intros H; now contradiction H.
    + assert (E : forall r k,
                isGenerating (state (onloadend file r k)) = false
                /\ generatedImage (state (onloadend file r k)) = None).
      { intros r k. unfold onloadend. now destruct (negb _). }
      repeat split.
      * destruct (readAsDataURL file);
          rewrite (proj1 (E _ _)); discriminate.
      * intros g. destruct (readAsDataURL file);
          rewrite (proj2 (E _ _)); discriminate.
      * intros _. exists file. repeat split.
        -- now apply includes_In.
        -- now apply N.ltb_ge in Hs.
  - cbn. repeat split; auto. intros H; now contradiction H.
Qed.

End UploadMore.

Section UploadThenGenerate.

Variable readAsDataURL : File -> option jsstring.
Variable generateContent :
  GenerateContentParameters -> settled (option GenerateContentResponse).
Variable typeErrorMessage : jsstring.
Variable now : N.

(** X18: when the reader yields the data URL of the file's bytes, an accepted
    upload followed by [handleGenerate] sends exactly one request, which
    carries the base64 encoding of those bytes, the file's mime type and the
    prompt (the user's, or the pre-filled one), provided the user's prompt is
    empty or does not trim to the empty string. *)
Theorem upload_then_generate (c : Component) (file : File)
    (bytes : list byte) :
  In (type file) ALLOWED_TYPES -> (size file <= fiveMB)%N ->
  readAsDataURL file = Some (toDataUrl (type file) bytes) ->
  prompt c = [] \/ trim (prompt c) <> [] ->
  let c' := handleFileUpload readAsDataURL c (Some file) in
  snd (handleGenerate generateContent typeErrorMessage now c')
  = [editRequest (Some (base64 bytes)) (type file) (prompt c')]
  /\ (prompt c' = prompt c \/ prompt c' = js "Add a futuristic neon aesthetic").
Proof.
  intros Ht Hs Hr Hp c'. subst c'.
  rewrite (handleFileUpload_loadend readAsDataURL c file Ht Hs), Hr.
  set (c' := onloadend file (Some (toDataUrl (type file) bytes)) c).
  assert (Hi : originalImage (state c') = Some (toDataUrl (type file) bytes)).
  { unfold c', onloadend. now destruct (negb _). }
  assert (Hm : originalMimeType (state c') = type file).
  { unfold c', onloadend. now destruct (negb _). }
  assert (Hq : (prompt c' = prompt c /\ trim (prompt c) <> [])
               \/ prompt c' = js "Add a futuristic neon aesthetic").
  { unfold c'. rewrite onloadend_prompt.
    destruct (prompt c) as [|ch p] eqn:E; cbn [truthy].
    - now right.
    - left. split; [reflexivity|]. destruct Hp as [Hp|Hp]; [discriminate|].
      exact Hp. }
  assert (Hn : trim (prompt c') <> []).
  { destruct Hq as [[-> Hq] | ->]; [exact Hq | vm_compute; discriminate]. }
  split; [|destruct Hq as [[Hq _]|Hq]; [now left | now right]].
  rewrite (handleGenerate_runs _ _ _ c' _ Hi) by (assumption || discriminate).
  cbv zeta. rewrite Hm.
  rewrite (extractBase64Data_toDataUrl_allowed (type file) bytes Ht).
  now destruct (editImageWithGemini _ _ _ _ _).
Qed.

End UploadThenGenerate.

(** ** The session as a machine: what holds after every sequence of events *)

Lemma handleGenerate_start_settle
    (generateContent :
       GenerateContentParameters -> settled (option GenerateContentResponse))
    (typeErrorMessage : jsstring) (now : N) (c : Component) :
  handleGenerate generateContent typeErrorMessage now c
  = match handleGenerateStart generateContent typeErrorMessage c with
    | None => (c, [])
    | Some (started, pending, request) =>
        (handleGenerateSettle now pending started, [request])
    end.
Proof.
  unfold handleGenerate, handleGenerateStart, handleGenerateSettle.
  destruct (originalImage (state c)) as [image|]; [|reflexivity].
  destruct (negb (truthy image) || negb (truthy (trim (prompt c))));
    [reflexivity|].
  cbn [outcome closurePrompt].
  now destruct (editImageWithGemini _ _ _ _ _).
Qed.

Lemma run_invariant (P : Session -> Prop) :
  (forall s e, P s -> P (step s e)) ->
  forall events s, P s -> P (run s events).
Proof.
  intros Hstep. unfold run.
  induction events as [|e events IH]; intros s Hs; simpl; [exact Hs|].
  apply IH, Hstep, Hs.
Qed.

Lemma handleGenerateStart_Some
    (generateContent :
       GenerateContentParameters -> settled (option GenerateContentResponse))
    (typeErrorMessage : jsstring) (c started : Component) (pending : Pending)
    (request : GenerateContentParameters) :
  handleGenerateStart generateContent typeErrorMessage c
  = Some (started, pending, request) ->
  exists image,
    originalImage (state c) = Some image /\ image <> []
    /\ trim (prompt c) <> []
    /\ started = setState c startGeneration
    /\ closurePrompt pending = prompt c
    /\ request = editRequest (extractBase64Data image)
                   (originalMimeType (state c)) (prompt c).
Proof.
  unfold handleGenerateStart.
  destruct (originalImage (state c)) as [image|]; [|discriminate].
  destruct (truthy image) eqn:Hi; [|discriminate].
  destruct (truthy (trim (prompt c))) eqn:Hp; [|discriminate].
  cbn [negb orb]. intros H. injection H as <- <- <-.
  exists image. apply truthy_true in Hi, Hp. repeat split; assumption.
Qed.

Lemma handleFileUpload_errorNotEmpty (readAsDataURL : File -> option jsstring)
    (c : Component) (file : option File) :
  errorNotEmpty c -> errorNotEmpty (handleFileUpload readAsDataURL c file).
Proof.
  intros Hc. destruct file as [file|]; [|exact Hc].
  unfold handleFileUpload.
  destruct (negb (includes ALLOWED_TYPES (type file))).
  { intros e H. injection H as <-. discriminate. }
  destruct (MAX_FILE_SIZE_MB * 1024 * 1024 <? size file)%N.
  { intros e H. injection H as <-. discriminate. }
  destruct (readAsDataURL file); unfold onloadend;
    destruct (negb _); intros e H; discriminate H.
Qed.

Lemma handleGenerateSettle_errorNotEmpty (now : N) (p : Pending) (c : Component) :
  errorNotEmpty c -> errorNotEmpty (handleGenerateSettle now p c).
Proof.
  intros Hc. unfold handleGenerateSettle.
  destruct (outcome p) as [url|m]; intros e H.
  - apply Hc. exact H.
  - injection H as <-. apply or_default_truthy. discriminate.
Qed.

Lemma step_errorNotEmpty (s : Session) (e : event) :
  errorNotEmpty (component s) -> errorNotEmpty (component (step s e)).
Proof.
  intros Hs. destruct e as [reader file|p|gc tem|k now|gc tem now|]; simpl.
  - now apply handleFileUpload_errorNotEmpty.
  - exact Hs.
  - destruct (handleGenerateStart gc tem (component s))
      as [[[started pending] request]|] eqn:E; [|exact Hs].
    apply handleGenerateStart_Some in E.
    destruct E as (image & _ & _ & _ & -> & _). intros e H. discriminate H.
  - destruct (nth_error (outstanding s) k) as [pending|]; [|exact Hs].
    now apply handleGenerateSettle_errorNotEmpty.
  - rewrite handleGenerate_start_settle.
    destruct (handleGenerateStart gc tem (component s))
      as [[[started pending] request]|] eqn:E; [|exact Hs].
    apply handleGenerateStart_Some in E.
    destruct E as (image & _ & _ & _ & -> & _).
    apply handleGenerateSettle_errorNotEmpty. intros e H. discriminate H.
  - intros e H. discriminate H.
Qed.

Lemma handleFileUpload_mimeAllowed (readAsDataURL : File -> option jsstring)
    (c : Component) (file : option File) :
  mimeAllowed c -> mimeAllowed (handleFileUpload readAsDataURL c file).
Proof.
  intros Hc. destruct file as [file|]; [|exact Hc].
  unfold handleFileUpload.
  destruct (includes ALLOWED_TYPES (type file)) eqn:Ht; cbn [negb];
    [|exact Hc].
  destruct (MAX_FILE_SIZE_MB * 1024 * 1024 <? size file)%N; [exact Hc|].
  apply includes_In in Ht.
  destruct (readAsDataURL file); unfold onloadend;
    destruct (negb _); intros _; exact Ht.
Qed.

Lemma handleGenerateSettle_mimeAllowed (now : N) (p : Pending) (c : Component) :
  mimeAllowed c -> mimeAllowed (handleGenerateSettle now p c).
Proof.
  intros Hc. unfold handleGenerateSettle.
  destruct (outcome p); exact Hc.
Qed.

Lemma step_mimeAllowed (s : Session) (e : event) :
  mimeAllowed (component s) -> mimeAllowed (component (step s e)).
Proof.
  intros Hs. destruct e as [reader file|p|gc tem|k now|gc tem now|]; simpl.
  - now apply handleFileUpload_mimeAllowed.
  - exact Hs.
  - destruct (handleGenerateStart gc tem (component s))
      as [[[started pending] request]|] eqn:E; [|exact Hs].
    apply handleGenerateStart_Some in E.
    destruct E as (image & _ & _ & _ & -> & _). exact Hs.
  - destruct (nth_error (outstanding s) k) as [pending|]; [|exact Hs].
    now apply handleGenerateSettle_mimeAllowed.
  - rewrite handleGenerate_start_settle.
    destruct (handleGenerateStart gc tem (component s))
      as [[[started pending] request]|] eqn:E; [|exact Hs].
    apply handleGenerateStart_Some in E.
    destruct E as (image & _ & _ & _ & -> & _).
    apply handleGenerateSettle_mimeAllowed. exact Hs.
  - intros H. now contradiction H.
Qed.

Lemma step_sent (s : Session) (e : event) :
  mimeAllowed (component s) -> Forall wellFormedRequest (sent s) ->
  Forall wellFormedRequest (sent (step s e)).
Proof.
  intros Hm Hs.
  assert (Hstart : forall gc tem started pending request,
            handleGenerateStart gc tem (component s)
            = Some (started, pending, request) ->
            Forall wellFormedRequest (sent s ++ [request])).
  { intros gc tem started pending request E.
    apply handleGenerateStart_Some in E.
    destruct E as (image & Hi & _ & Hp & _ & _ & ->).
    apply Forall_app. split; [exact Hs|]. constructor; [|constructor].
    do 3 eexists. split; [reflexivity|]. split; [|exact Hp].
    apply Hm. rewrite Hi. discriminate. }
  destruct e as [reader file|p|gc tem|k now|gc tem now|]; simpl;
    try exact Hs.
  - destruct (handleGenerateStart gc tem (component s))
      as [[[started pending] request]|] eqn:E; [|exact Hs].
    now apply (Hstart gc tem started pending request).
  - destruct (nth_error (outstanding s) k); exact Hs.
  - rewrite handleGenerate_start_settle.
    destruct (handleGenerateStart gc tem (component s))
      as [[[started pending] request]|] eqn:E; simpl.
    + now apply (Hstart gc tem started pending request).
    + now rewrite app_nil_r.
Qed.

(** X19: whatever happens in a session, an error that is set is never the
    empty string, so the error box, which shows a truthy error, shows every
    error that is set. *)
Theorem session_error_not_empty (events : list event) (e : jsstring) :
  error (state (component (run start events))) = Some e -> e <> [].
Proof.
  revert e. change (errorNotEmpty (component (run start events))).
  apply (run_invariant (fun s => errorNotEmpty (component s))).
  - apply step_errorNotEmpty.
  - intros e H. discriminate H.
Qed.

(** X20: whatever happens in a session, a source image is only ever stored
    together with one of the three allowed mime types. *)
Theorem session_mime_allowed (events : list event) :
  originalImage (state (component (run start events))) <> None ->
  In (originalMimeType (state (component (run start events)))) ALLOWED_TYPES.
Proof.
  change (mimeAllowed (component (run start events))).
  apply (run_invariant (fun s => mimeAllowed (component s))).
  - apply step_mimeAllowed.
  - intros H. now contradiction H.
Qed.

(** X21: every request a session sends names the model
    [gemini-2.5-flash-image] and carries one inline-data part with an allowed
    mime type followed by one text part whose prompt does not trim to the
    empty string. *)
Theorem session_requests_well_formed (events : list event) :
  Forall wellFormedRequest (sent (run start events)).
Proof.
  apply (run_invariant
           (fun s => mimeAllowed (component s)
                     /\ Forall wellFormedRequest (sent s))).
  - intros s e [Hm Hs]. split;
      [now apply step_mimeAllowed | now apply step_sent].
  - split; [intros H; now contradiction H | constructor].
Qed.

Lemma onloadend_state (file : File) (result : option jsstring)
    (c : Component) :
  state (onloadend file result c)
  = {| originalImage := result;
       originalMimeType := type file;
       isGenerating := false;
       generatedImage := None;
       error := None |}.
Proof. unfold onloadend. now destruct (negb _). Qed.

Lemma handleFileUpload_cases (readAsDataURL : File -> option jsstring)
    (c : Component) (file : option File) :
  handleFileUpload readAsDataURL c file = c
  \/ (exists e, handleFileUpload readAsDataURL c file
                = setState c (withError e))
  \/ (exists f result k,
        handleFileUpload readAsDataURL c file = onloadend f result k).
Proof.
  destruct file as [file|]; [|now left]. unfold handleFileUpload.
  destruct (negb (includes ALLOWED_TYPES (type file)));
    [right; left; now eexists|].
  destruct (MAX_FILE_SIZE_MB * 1024 * 1024 <? size file)%N;
    [right; left; now eexists|].
  right; right. destruct (readAsDataURL file); now do 3 eexists.
Qed.

Lemma step_settledSession (s : Session) (e : event) :
  sequential e = true -> settledSession s -> settledSession (step s e).
Proof.
  intros He (Ho & Hg & Hr).
  destruct e as [reader file|p|gc tem|k now|gc tem now|]; try discriminate;
    unfold settledSession; cbn [step component outstanding].
  - destruct (handleFileUpload_cases reader (component s) file)
      as [-> | [(e & ->) | (f & result & k & ->)]].
    + repeat split; assumption.
    + repeat split; assumption.
    + rewrite onloadend_state. cbn.
      repeat split; [exact Ho | intros H; now contradiction H].
  - repeat split; assumption.
  - rewrite handleGenerate_start_settle.
    destruct (handleGenerateStart gc tem (component s))
      as [[[started pending] request]|] eqn:E;
      cbn [component outstanding]; [|repeat split; assumption].
    apply handleGenerateStart_Some in E.
    destruct E as (image & Hi & _ & _ & -> & _).
    unfold handleGenerateSettle.
    destruct (outcome pending); cbn; (split; [exact Ho|]);
      (split; [reflexivity|]); intros H.
    + rewrite Hi. discriminate.
    + now apply Hr.
  - repeat split; [exact Ho | intros H; now contradiction H].
Qed.

(** X22: in a session where every generate request settles before the next
    event (no click arrives during a request), nothing is outstanding after
    any event, the in-flight flag is clear, and a generated result is only
    ever stored together with a source image. *)
Theorem sequential_session (events : list event) :
  Forall (fun e => sequential e = true) events ->
  outstanding (run start events) = []
  /\ isGenerating (state (component (run start events))) = false
  /\ (generatedImage (state (component (run start events))) <> None ->
      originalImage (state (component (run start events))) <> None).
Proof.
  intros H. change (settledSession (run start events)).
  assert (G : forall s, settledSession s -> settledSession (run s events)).
  { unfold run. induction H as [|e events He _ IH]; intros s Hs; simpl;
      [exact Hs|].
    apply IH. now apply step_settledSession. }
  apply G. repeat split. intros E. now contradiction E.
Qed.

(** X23: a reset does not cancel an outstanding request: when that request
    is fulfilled after the reset, its result is stored in the emptied state,
    next to no source image, with the prompt of the click that started it. *)
Theorem settle_after_reset (s : Session) (k : nat) (now : N) (p : Pending)
    (url : jsstring) :
  nth_error (outstanding s) k = Some p -> outcome p = Fulfilled url ->
  state (component (step (step s ResetClicked) (RequestSettled k now)))
  = {| originalImage := None;
       originalMimeType := [];
       isGenerating := false;
       generatedImage :=
         Some {| imageUrl := url;
                 types.prompt := closurePrompt p;
                 timestamp := now |};
       error := None |}.
Proof.
  intros Hk Hu. cbn [step component outstanding].
  rewrite Hk. cbn [component]. unfold handleGenerateSettle. now rewrite Hu.
Qed.

(** ** The further properties at sample values *)

Lemma editImageWithGemini_no_candidates_witness :
  editImageWithGemini Traces.respondNull [] (Some (js "TWFu")) (js "image/png")
    Traces.defaultPrompt
  = Rejected (Some (js "No response candidates returned from Gemini.")).
Proof.
  apply (editImageWithGemini_no_candidates Traces.respondNull []
           (Some (js "TWFu")) (js "image/png") Traces.defaultPrompt).
  left. reflexivity.
Defined.

Lemma editImageWithGemini_transport_failure_witness :
  (forall e, Some (js "quota exceeded") = Some e -> e <> [] ->
     editImageWithGemini (Samples.reject (js "quota exceeded")) []
       (Some (js "TWFu")) (js "image/png") Traces.defaultPrompt
     = Rejected (Some e))
  /\ (Some (js "quota exceeded") = None \/ Some (js "quota exceeded") = Some [] ->
      editImageWithGemini (Samples.reject (js "quota exceeded")) []
        (Some (js "TWFu")) (js "image/png") Traces.defaultPrompt
      = Rejected (Some (js "Failed to edit image using Gemini."))).
Proof.
  apply (editImageWithGemini_transport_failure
           (Samples.reject (js "quota exceeded")) []
           (Some (js "TWFu")) (js "image/png") Traces.defaultPrompt
           (Some (js "quota exceeded"))).
  reflexivity.
Defined.

Lemma editImageWithGemini_fulfilled_only_with_image_witness :
  exists ps blob,
    respondsWith (Samples.respond Samples.mixed)
      (editRequest (Some (js "TWFu")) (js "image/png") Traces.defaultPrompt) ps
    /\ firstInlineImage ps blob
    /\ Traces.generatedUrl
       = js "data:" ++ or_default (mimeType blob) (js "image/png")
           ++ js ";base64," ++ template (data blob)
    /\ Traces.generatedUrl <> [].
Proof.
  apply (editImageWithGemini_fulfilled_only_with_image
           (Samples.respond Samples.mixed) []
           (Some (js "TWFu")) (js "image/png") Traces.defaultPrompt
           Traces.generatedUrl).
  reflexivity.
Defined.

Lemma editImageWithGemini_first_candidate_only_witness :
  editImageWithGemini (Samples.respond Samples.mixed) []
    (Some (js "TWFu")) (js "image/png") Traces.defaultPrompt
  = editImageWithGemini Traces.respondTwo []
      (Some (js "TWFu")) (js "image/png") Traces.defaultPrompt.
Proof.
  apply (editImageWithGemini_first_candidate_only
           (Samples.respond Samples.mixed) [] Traces.respondTwo
           (Some (js "TWFu")) (js "image/png") Traces.defaultPrompt
           Traces.oneCandidate Traces.twoCandidates Traces.first
           [] [Traces.bare]); reflexivity.
Defined.

Lemma editImageWithGemini_no_parts_witness :
  editImageWithGemini (Samples.respond []) []
    (Some (js "TWFu")) (js "image/png") Traces.defaultPrompt
  = Rejected (Some (js "Model did not return a valid image.")).
Proof.
  apply (editImageWithGemini_no_parts (Samples.respond []) []
           (Some (js "TWFu")) (js "image/png") Traces.defaultPrompt
           Traces.noParts {| content := Some {| parts := Some [] |} |} []).
  - reflexivity.
  - reflexivity.
  - right. reflexivity.
Defined.

Lemma editImageWithGemini_no_content_witness :
  editImageWithGemini Traces.respondBare Traces.v8Message
    (Some (js "TWFu")) (js "image/png") Traces.defaultPrompt
  = Rejected (Some (or_default (Some Traces.v8Message)
                      (js "Failed to edit image using Gemini."))).
Proof.
  apply (editImageWithGemini_no_content Traces.respondBare Traces.v8Message
           (Some (js "TWFu")) (js "image/png") Traces.defaultPrompt
           {| candidates := Some [Traces.bare] |} Traces.bare []);
    reflexivity.
Defined.

Lemma downloadImage_after_generate_witness :
  downloadImage 1762041600000
    (fst (handleGenerate (Samples.respond Samples.mixed) [] 2 Samples.uploaded))
  = Some {| href := Traces.generatedUrl;
            download := js "heroforge-edit-" ++ template_number 1762041600000
                          ++ js ".png" |}.
Proof.
  apply (downloadImage_after_generate (Samples.respond Samples.mixed) [] 2
           Samples.uploaded Samples.pngUrl Traces.generatedUrl 1762041600000).
  - reflexivity.
  - discriminate.
  - vm_compute. discriminate.
  - reflexivity.
Defined.

Example download_name :
  js "heroforge-edit-" ++ template_number 1762041600000 ++ js ".png"
  = js "heroforge-edit-1762041600000.png".
Proof. reflexivity. Qed.

Lemma handleFileUpload_prompt_witness :
  (prompt initial <> [] ->
   prompt (handleFileUpload (Samples.reader Samples.pngUrl) initial
             (Some Samples.smallPng)) = prompt initial)
  /\ (prompt initial = [] ->
      prompt (handleFileUpload (Samples.reader Samples.pngUrl) initial
                (Some Samples.smallPng))
      = js "Add a futuristic neon aesthetic").
Proof.
  apply (handleFileUpload_prompt (Samples.reader Samples.pngUrl) initial
           Samples.smallPng).
  - vm_compute. tauto.
  - vm_compute. discriminate.
Defined.

Lemma handleFileUpload_failed_read_witness :
  state (handleFileUpload Samples.noReader Samples.shown (Some Samples.smallPng))
  = {| originalImage := None;
       originalMimeType := js "image/png";
       isGenerating := false;
       generatedImage := None;
       error := None |}.
Proof.
  apply (handleFileUpload_failed_read Samples.noReader Samples.shown
           Samples.smallPng).
  - vm_compute. tauto.
  - vm_compute. discriminate.
  - reflexivity.
Defined.

Lemma upload_then_generate_witness :
  snd (handleGenerate (Samples.respond Samples.mixed) [] 2
         (handleFileUpload (Samples.reader Samples.pngUrl) initial
            (Some Samples.smallPng)))
  = [editRequest (Some (base64 [x4d; x61; x6e])) (js "image/png")
       (prompt (handleFileUpload (Samples.reader Samples.pngUrl) initial
                  (Some Samples.smallPng)))]
  /\ (prompt (handleFileUpload (Samples.reader Samples.pngUrl) initial
                (Some Samples.smallPng)) = prompt initial
      \/ prompt (handleFileUpload (Samples.reader Samples.pngUrl) initial
                   (Some Samples.smallPng))
         = js "Add a futuristic neon aesthetic").
Proof.
  apply (upload_then_generate (Samples.reader Samples.pngUrl)
           (Samples.respond Samples.mixed) [] 2 initial Samples.smallPng
           [x4d; x61; x6e]).
  - vm_compute. tauto.
  - vm_compute. discriminate.
  - reflexivity.
  - left. reflexivity.
Defined.

Lemma session_error_not_empty_witness : invalidTypeMessage <> [].
Proof.
  apply (session_error_not_empty [Traces.chooseGif] invalidTypeMessage).
  reflexivity.
Defined.

Lemma session_mime_allowed_witness :
  In (originalMimeType (state (component (run start [Traces.choosePng]))))
    ALLOWED_TYPES.
Proof.
  apply (session_mime_allowed [Traces.choosePng]).
  discriminate.
Defined.

Lemma sequential_session_witness :
  outstanding (run start Traces.calm) = []
  /\ isGenerating (state (component (run start Traces.calm))) = false
  /\ (generatedImage (state (component (run start Traces.calm))) <> None ->
      originalImage (state (component (run start Traces.calm))) <> None).
Proof.
  apply (sequential_session Traces.calm).
  repeat constructor.
Defined.

Lemma settle_after_reset_witness :
  state (component (step (step Traces.waiting ResetClicked)
                      (RequestSettled 0 3)))
  = {| originalImage := None;
       originalMimeType := [];
       isGenerating := false;
       generatedImage :=
         Some {| imageUrl := Traces.generatedUrl;
                 types.prompt := closurePrompt Traces.awaited;
                 timestamp := 3 |};
       error := None |}.
Proof.
  apply (settle_after_reset Traces.waiting 0 3 Traces.awaited
           Traces.generatedUrl); reflexivity.
Defined.

(** X24: whenever the sample prompts are shown, clicking any of them leaves
    the generate button enabled: none of them trims to the empty string. *)
Theorem sample_prompt_enables_generate (c : Component) (p : jsstring) :
  samplePromptsShown c = true -> In p SAMPLE_PROMPTS ->
  generateDisabled (setPrompt c p) = false.
Proof.
  unfold samplePromptsShown, generateDisabled. cbn [setPrompt state prompt].
  intros H Hp. apply andb_true_iff in H. destruct H as [-> Hg].
  apply negb_true_iff in Hg. rewrite Hg. cbn [negb orb].
  rewrite orb_false_r. apply negb_false_iff.
  repeat (destruct Hp as [<- | Hp]; [reflexivity|]). destruct Hp.
Qed.

Lemma sample_prompt_enables_generate_witness :
  generateDisabled
    (setPrompt Samples.uploaded (js "Make it look like a pencil sketch"))
  = false.
Proof.
  apply (sample_prompt_enables_generate Samples.uploaded
           (js "Make it look like a pencil sketch")).
  - reflexivity.
  - right. left. reflexivity.
Defined.

(** A fulfilled request keeps the error of the state it settles into: after a
    reset and a rejected upload during the request, the error of that upload
    and the new result are both set. *)
Example late_result_beside_error :
  error (state (component (run start Traces.overtaken)))
  = Some tooLargeMessage
  /\ generatedImage (state (component (run start Traces.overtaken)))
     = Some {| imageUrl := Traces.generatedUrl;
               types.prompt := Traces.defaultPrompt;
               timestamp := 3 |}.
Proof. split; reflexivity. Qed.
